(** * Costing engine of dockfinity-costing-app ([src/calc.ts], [src/types.ts])

    The engine is one pure function [calculate : Item -> AppSettings ->
    CalcResult] over JavaScript numbers.  It is embedded once, over an
    abstract number interface [JsNumber], and the interface is instantiated
    twice:

    - [float_JsNumber]: IEEE 754 binary64, the arithmetic the program runs
      on (primitive floats; [Math.round] is written on the bit-level
      specification of a float);
    - [Q_JsNumber]: exact rational arithmetic, the arithmetic the formulas
      of the costing rules are stated in.  It agrees with the program
      wherever no divisor is zero, up to the rounding of binary64.

    Theorems that only depend on the shape of the computation are proved for
    every instance; algebraic laws are proved on the exact instance;
    statements about Infinity and NaN are proved on binary64. *)

From Stdlib Require Import ZArith QArith Qround Qabs Lqa Lia Bool String.
From Stdlib Require Import Floats.

(** ** JavaScript numbers *)

Declare Scope js_scope.
Delimit Scope js_scope with js.

(** The operations [calc.ts] applies to a number.  [lit q] is the numeric
    literal whose decimal expansion is the rational [q]; [gtb x y] is
    [x > y]; [truthy] is ToBoolean on a number (used by [x || 0]);
    [isFinite] is the global [isFinite]; [mathRound] is [Math.round]. *)
Class JsNumber (num : Type) : Type := {
  lit : Q -> num;
  add : num -> num -> num;
  sub : num -> num -> num;
  mul : num -> num -> num;
  div : num -> num -> num;
  gtb : num -> num -> bool;
  isFinite : num -> bool;
  truthy : num -> bool;
  mathRound : num -> num;
  gtb_zero_zero : gtb (lit 0) (lit 0) = false
}.

Arguments lit {num JsNumber} q%_Q.

Infix "+" := add : js_scope.
Infix "-" := sub : js_scope.
Infix "*" := mul : js_scope.
Infix "/" := div : js_scope.
Notation "x >? y" := (gtb x y) (at level 70, no associativity) : js_scope.

(** A value of unknown type, as read through [(part as any).circleRatePerKg]:
    [typeof v === 'number'] holds exactly for [JsNum]. *)
Inductive JsValue (num : Type) : Type :=
| JsUndefined
| JsNull
| JsBoolean (b : bool)
| JsNum (n : num)
| JsString (s : string).

Arguments JsUndefined {num}.
Arguments JsNull {num}.
Arguments JsBoolean {num} b.
Arguments JsNum {num} n.
Arguments JsString {num} s.

(** ** Data model ([types.ts])

    Each TypeScript object type is a record in a module of its name, so that
    fields keep their source names ([PressStage.tutPct],
    [PolishStage.tutPct], ...). *)

Module ScrapReturn.
Record t (num : Type) : Type := mk { enabled : bool; ratePerKg : num }.
Arguments mk {num}.
Arguments enabled {num}.
Arguments ratePerKg {num}.
End ScrapReturn.

Module PressStage.
Record t (num : Type) : Type := mk {
  ratePerKg : num;
  actualWastagePct : num;
  jobWastagePct : num;
  tutPct : num;
  scrapReturn : ScrapReturn.t num
}.
Arguments mk {num}.
Arguments ratePerKg {num}.
Arguments actualWastagePct {num}.
Arguments jobWastagePct {num}.
Arguments tutPct {num}.
Arguments scrapReturn {num}.
End PressStage.

Module InductionStage.
Record t (num : Type) : Type := mk { enabled : bool; ratePerKg : num }.
Arguments mk {num}.
Arguments enabled {num}.
Arguments ratePerKg {num}.
End InductionStage.

Module PolishStage.
Record t (num : Type) : Type := mk {
  ratePerKg : num;
  wastagePct : num;
  tutPct : num;
  scrapReturn : ScrapReturn.t num
}.
Arguments mk {num}.
Arguments ratePerKg {num}.
Arguments wastagePct {num}.
Arguments tutPct {num}.
Arguments scrapReturn {num}.
End PolishStage.

Module PackingStage.
Record t (num : Type) : Type := mk {
  packingRatePerKg : num;
  tutPct : num;
  scrapReturn : ScrapReturn.t num
}.
Arguments mk {num}.
Arguments packingRatePerKg {num}.
Arguments tutPct {num}.
Arguments scrapReturn {num}.
End PackingStage.

Module Polybag.
Record t (num : Type) : Type := mk { sizeIn : num; gauge : num; ratePerKg : num }.
Arguments mk {num}.
Arguments sizeIn {num}.
Arguments gauge {num}.
Arguments ratePerKg {num}.
End Polybag.

Module Pipe.
Record t (num : Type) : Type := mk {
  widthIn : num;
  lengthIn : num;
  gauge : num;
  pcsPerPipe : num;
  ratePerKg : num
}.
Arguments mk {num}.
Arguments widthIn {num}.
Arguments lengthIn {num}.
Arguments gauge {num}.
Arguments pcsPerPipe {num}.
Arguments ratePerKg {num}.
End Pipe.

Module BagProfile.
Inductive profileName : Set := heavy | light | custom.
Record t (num : Type) : Type := mk {
  name : profileName;
  polybag : Polybag.t num;
  pipe : Pipe.t num
}.
Arguments mk {num}.
Arguments name {num}.
Arguments polybag {num}.
Arguments pipe {num}.
End BagProfile.

Module KundaSpec.
Record t (num : Type) : Type := mk { enabled : bool; weightG : num; ratePerKg : num }.
Arguments mk {num}.
Arguments enabled {num}.
Arguments weightG {num}.
Arguments ratePerKg {num}.
End KundaSpec.

Module PartSpec.
Inductive partLabel : Set := box | cover.
(** [circleRatePerKg?: number] is read through a cast to [any], hence a
    [JsValue]; [induction?: InductionStage] is an option. *)
Record t (num : Type) : Type := mk {
  label : partLabel;
  circleSizeIn : num;
  thicknessMm : num;
  circleRatePerKg : JsValue num;
  press : PressStage.t num;
  induction : option (InductionStage.t num)
}.
Arguments mk {num}.
Arguments label {num}.
Arguments circleSizeIn {num}.
Arguments thicknessMm {num}.
Arguments circleRatePerKg {num}.
Arguments press {num}.
Arguments induction {num}.
End PartSpec.

Module Item.
Record t (num : Type) : Type := mk {
  id : string;
  name : string;
  box : PartSpec.t num;
  cover : PartSpec.t num;
  kunda : KundaSpec.t num;
  bagProfile : BagProfile.t num;
  polish : PolishStage.t num;
  packing : PackingStage.t num
}.
Arguments mk {num}.
Arguments id {num}.
Arguments name {num}.
Arguments box {num}.
Arguments cover {num}.
Arguments kunda {num}.
Arguments bagProfile {num}.
Arguments polish {num}.
Arguments packing {num}.
End Item.

Module AppSettings.
Record t (num : Type) : Type := mk {
  circleBaseRate : num;
  circleAddPerKg : num;
  circleExtraAddPerKg : num;
  bagStandardKg : num
}.
Arguments mk {num}.
Arguments circleBaseRate {num}.
Arguments circleAddPerKg {num}.
Arguments circleExtraAddPerKg {num}.
Arguments bagStandardKg {num}.
End AppSettings.

Module PerPc.
Record t (num : Type) : Type := mk {
  boxG : num;
  coverG : num;
  kundaG : num;
  polybagG : num;
  pipeG : num;
  totalPackedG : num
}.
Arguments mk {num}.
Arguments boxG {num}.
Arguments coverG {num}.
Arguments kundaG {num}.
Arguments polybagG {num}.
Arguments pipeG {num}.
Arguments totalPackedG {num}.
End PerPc.

Module Debug.
Record t (num : Type) : Type := mk {
  bagKg : num;
  pcs : num;
  circleKgInTotal : num;
  circleCost : num;
  pressCost : num;
  inductionCost : num;
  polishCost : num;
  packingCost : num;
  kundaCost : num;
  plasticCost : num;
  scrapCredit : num;
  finalCost : num
}.
Arguments mk {num}.
Arguments bagKg {num}.
Arguments pcs {num}.
Arguments circleKgInTotal {num}.
Arguments circleCost {num}.
Arguments pressCost {num}.
Arguments inductionCost {num}.
Arguments polishCost {num}.
Arguments packingCost {num}.
Arguments kundaCost {num}.
Arguments plasticCost {num}.
Arguments scrapCredit {num}.
Arguments finalCost {num}.
End Debug.

Module CalcResult.
Record t (num : Type) : Type := mk {
  itemId : string;
  itemName : string;
  perPc : PerPc.t num;
  pcsPerBag : num;
  perKgRate : num;
  perPcRate : num;
  debug : Debug.t num
}.
Arguments mk {num}.
Arguments itemId {num}.
Arguments itemName {num}.
Arguments perPc {num}.
Arguments pcsPerBag {num}.
Arguments perKgRate {num}.
Arguments perPcRate {num}.
Arguments debug {num}.
End CalcResult.

(** The two record types local to [calc.ts]. *)
Module StageFlow.
Record t (num : Type) : Type := mk {
  circleKgIn : num;
  kalaKgOut : num;
  polishKgOut : num;
  packedKgOut : num;
  scrapKg : num;
  scrapCredit : num;
  costPress : num;
  costPolish : num;
  costInduction : num
}.
Arguments mk {num}.
Arguments circleKgIn {num}.
Arguments kalaKgOut {num}.
Arguments polishKgOut {num}.
Arguments packedKgOut {num}.
Arguments scrapKg {num}.
Arguments scrapCredit {num}.
Arguments costPress {num}.
Arguments costPolish {num}.
Arguments costInduction {num}.
End StageFlow.

Module Components.
Record t (num : Type) : Type := mk {
  circleCost : num;
  pressCharge : num;
  inductionCharge : num;
  polishCharge : num;
  scrapCreditPress : num;
  scrapCreditPolish : num;
  scrapCreditPacking : num
}.
Arguments mk {num}.
Arguments circleCost {num}.
Arguments pressCharge {num}.
Arguments inductionCharge {num}.
Arguments polishCharge {num}.
Arguments scrapCreditPress {num}.
Arguments scrapCreditPolish {num}.
Arguments scrapCreditPacking {num}.
End Components.

Module PartCostResult.
Record t (num : Type) : Type := mk {
  flow : StageFlow.t num;
  partCostExcludingFinalPackingCharge : num;
  partRatePerKgPacked : num;
  components : Components.t num
}.
Arguments mk {num}.
Arguments flow {num}.
Arguments partCostExcludingFinalPackingCharge {num}.
Arguments partRatePerKgPacked {num}.
Arguments components {num}.
End PartCostResult.

(** ** Weight formulas and helpers ([calc.ts], lines 13-34 and 86) *)

Section Weight.
Context {num : Type} `{JsNumber num}.
Local Open Scope js_scope.

Definition effectiveThicknessMm (inputMm : num) : num :=
  inputMm + lit 0.003.

Definition circleWeightG (circleIn thicknessMm : num) : num :=
  let base := (lit 263 / lit 254) * circleIn * circleIn in
  let scale := effectiveThicknessMm thicknessMm / lit 0.263 in
  base * scale.

Definition polybagWeightG (sizeIn gauge : num) : num :=
  (sizeIn * sizeIn * gauge) / lit 3300.

Definition pipeWeightG (widthIn lengthIn gauge : num) : num :=
  (widthIn * lengthIn * gauge) / lit 3300.

Definition r2 (n : num) : num := mathRound (n * lit 100) / lit 100.
Definition r3 (n : num) : num := mathRound (n * lit 1000) / lit 1000.

Definition pct (x : num) : num := x / lit 100.

(** [x || y] on numbers. *)
Definition orElse (x y : num) : num := if truthy x then x else y.
End Weight.

(** ** Forward costing of one part ([computePartForwardCost], lines 88-191)

    Every [const] of the function body is a definition of the same name
    over the function's parameters, in source order. *)

Module Part.
Section Body.
Context {num : Type} `{JsNumber num}.
Local Open Scope js_scope.

Variable requiredPackedKg : num.
Variable part : PartSpec.t num.
Variable polish : PolishStage.t num.
Variable packing : PackingStage.t num.
Variable circleRatePerKg : num.

Definition press : PressStage.t num := PartSpec.press part.

(* quantity flow, from the final required packed kg *)
Definition packTutP : num := pct (PackingStage.tutPct packing).
Definition packingInputKg : num := requiredPackedKg / (lit 1 - packTutP).
Definition packingTutKg : num := packingInputKg - requiredPackedKg.

Definition polTutP : num := pct (PolishStage.tutPct polish).
Definition polWastP : num := pct (PolishStage.wastagePct polish).

Definition polishInputKalaKg : num :=
  packingInputKg / ((lit 1 - polTutP) * (lit 1 - polWastP)).
Definition polishTutKg : num := polishInputKalaKg * polTutP.

Definition polishDeliveredKg : num :=
  polishInputKalaKg * (lit 1 - polTutP) * (lit 1 - polWastP).

Definition pressTutP : num := pct (PressStage.tutPct press).
Definition jobWastP : num := pct (PressStage.jobWastagePct press).

Definition pressInputCircleKg : num :=
  polishInputKalaKg / ((lit 1 - pressTutP) * (lit 1 - jobWastP)).
Definition pressTutKg : num := pressInputCircleKg * pressTutP.
Definition pressDeliveredKalaKg : num :=
  pressInputCircleKg * (lit 1 - pressTutP) * (lit 1 - jobWastP).

(* costs, forward method *)
Definition circleCost : num := pressInputCircleKg * circleRatePerKg.

Definition pressCharge : num :=
  pressDeliveredKalaKg * PressStage.ratePerKg press.

(** [!!part.induction?.enabled] and [part.induction?.ratePerKg ?? 0] *)
Definition inductionEnabled : bool :=
  match PartSpec.induction part with
  | Some i => InductionStage.enabled i
  | None => false
  end.
Definition inductionRate : num :=
  match PartSpec.induction part with
  | Some i => InductionStage.ratePerKg i
  | None => lit 0
  end.
Definition inductionCharge : num :=
  if inductionEnabled && (inductionRate >? lit 0)
  then pressDeliveredKalaKg * inductionRate
  else lit 0.

Definition polishCharge : num :=
  polishDeliveredKg * PolishStage.ratePerKg polish.

Definition scrapCreditPress : num :=
  if ScrapReturn.enabled (PressStage.scrapReturn press)
  then pressTutKg * ScrapReturn.ratePerKg (PressStage.scrapReturn press)
  else lit 0.

Definition scrapCreditPolish : num :=
  if ScrapReturn.enabled (PolishStage.scrapReturn polish)
  then polishTutKg * ScrapReturn.ratePerKg (PolishStage.scrapReturn polish)
  else lit 0.

Definition scrapCreditPacking : num :=
  if ScrapReturn.enabled (PackingStage.scrapReturn packing)
  then packingTutKg * ScrapReturn.ratePerKg (PackingStage.scrapReturn packing)
  else lit 0.

Definition scrapCreditTotal : num :=
  scrapCreditPress + scrapCreditPolish + scrapCreditPacking.
Definition scrapKgTotal : num := pressTutKg + polishTutKg + packingTutKg.

Definition partCost : num :=
  circleCost + pressCharge + inductionCharge + polishCharge
  - scrapCreditTotal.

Definition partRatePerKgPacked : num := partCost / requiredPackedKg.

Definition flow : StageFlow.t num :=
  {| StageFlow.circleKgIn := pressInputCircleKg;
     StageFlow.kalaKgOut := pressDeliveredKalaKg;
     StageFlow.polishKgOut := polishDeliveredKg;
     StageFlow.packedKgOut := requiredPackedKg;
     StageFlow.scrapKg := scrapKgTotal;
     StageFlow.scrapCredit := scrapCreditTotal;
     StageFlow.costPress := circleCost + pressCharge;
     StageFlow.costInduction := inductionCharge;
     StageFlow.costPolish := polishCharge |}.

Definition computePartForwardCost : PartCostResult.t num :=
  {| PartCostResult.flow := flow;
     PartCostResult.partCostExcludingFinalPackingCharge := partCost;
     PartCostResult.partRatePerKgPacked := partRatePerKgPacked;
     PartCostResult.components :=
       {| Components.circleCost := circleCost;
          Components.pressCharge := pressCharge;
          Components.inductionCharge := inductionCharge;
          Components.polishCharge := polishCharge;
          Components.scrapCreditPress := scrapCreditPress;
          Components.scrapCreditPolish := scrapCreditPolish;
          Components.scrapCreditPacking := scrapCreditPacking |} |}.
End Body.
End Part.

Abbreviation computePartForwardCost := Part.computePartForwardCost.

(** ** Circle rate ([fallbackCircleRate], [resolvePartCircleRatePerKg]) *)

Section Rate.
Context {num : Type} `{JsNumber num}.
Local Open Scope js_scope.

Definition fallbackCircleRate (settings : AppSettings.t num) : num :=
  AppSettings.circleBaseRate settings
  + AppSettings.circleAddPerKg settings
  + orElse (AppSettings.circleExtraAddPerKg settings) (lit 0).

Definition resolvePartCircleRatePerKg
    (part : PartSpec.t num) (settings : AppSettings.t num) : num :=
  match PartSpec.circleRatePerKg part with
  | JsNum explicit =>
      if isFinite explicit && (explicit >? lit 0) then explicit
      else fallbackCircleRate settings
  | _ => fallbackCircleRate settings
  end.
End Rate.

(** ** The orchestrator ([calculate], lines 209-330)

    As for [Part]: one definition per [const], in source order.  The source
    has no [throw] and JavaScript arithmetic raises nothing, so [calculate]
    is a total function to [CalcResult]. *)

Module Calc.
Section Body.
Context {num : Type} `{JsNumber num}.
Local Open Scope js_scope.

Variable item : Item.t num.
Variable settings : AppSettings.t num.

Definition bagKg : num := AppSettings.bagStandardKg settings.

(* weight per piece, grams *)
Definition boxCircleG : num :=
  circleWeightG (PartSpec.circleSizeIn (Item.box item))
                (PartSpec.thicknessMm (Item.box item)).
Definition coverCircleG : num :=
  circleWeightG (PartSpec.circleSizeIn (Item.cover item))
                (PartSpec.thicknessMm (Item.cover item)).

Definition boxAfterPressG : num :=
  boxCircleG
  * (lit 1 - pct (PressStage.actualWastagePct (PartSpec.press (Item.box item)))).
Definition coverAfterPressG : num :=
  coverCircleG
  * (lit 1 - pct (PressStage.actualWastagePct (PartSpec.press (Item.cover item)))).

Definition boxAfterPolishG : num :=
  boxAfterPressG * (lit 1 - pct (PolishStage.wastagePct (Item.polish item))).
Definition coverAfterPolishG : num :=
  coverAfterPressG * (lit 1 - pct (PolishStage.wastagePct (Item.polish item))).

Definition kundaG : num :=
  if KundaSpec.enabled (Item.kunda item)
  then KundaSpec.weightG (Item.kunda item)
  else lit 0.
Definition polybagG : num :=
  polybagWeightG (Polybag.sizeIn (BagProfile.polybag (Item.bagProfile item)))
                 (Polybag.gauge (BagProfile.polybag (Item.bagProfile item))).
Definition pipePerPcG : num :=
  pipeWeightG (Pipe.widthIn (BagProfile.pipe (Item.bagProfile item)))
              (Pipe.lengthIn (BagProfile.pipe (Item.bagProfile item)))
              (Pipe.gauge (BagProfile.pipe (Item.bagProfile item)))
  / Pipe.pcsPerPipe (BagProfile.pipe (Item.bagProfile item)).

Definition totalPackedG : num :=
  boxAfterPolishG + coverAfterPolishG + kundaG + polybagG + pipePerPcG.

Definition pcsPerBag : num := (bagKg * lit 1000) / totalPackedG.
Definition pcs : num := pcsPerBag.

(* packed kg split *)
Definition totalBoxKgPacked : num := (pcs * boxAfterPolishG) / lit 1000.
Definition totalCoverKgPacked : num := (pcs * coverAfterPolishG) / lit 1000.

(* rates *)
Definition boxCircleRate : num :=
  resolvePartCircleRatePerKg (Item.box item) settings.
Definition coverCircleRate : num :=
  resolvePartCircleRatePerKg (Item.cover item) settings.

Definition boxCostRes : PartCostResult.t num :=
  computePartForwardCost totalBoxKgPacked (Item.box item)
    (Item.polish item) (Item.packing item) boxCircleRate.

Definition coverCostRes : PartCostResult.t num :=
  computePartForwardCost totalCoverKgPacked (Item.cover item)
    (Item.polish item) (Item.packing item) coverCircleRate.

Definition boxCost : num :=
  PartCostResult.partCostExcludingFinalPackingCharge boxCostRes.
Definition coverCost : num :=
  PartCostResult.partCostExcludingFinalPackingCharge coverCostRes.

Definition kundaKg : num := (pcs * kundaG) / lit 1000.
Definition kundaCost : num :=
  if KundaSpec.enabled (Item.kunda item)
  then kundaKg * KundaSpec.ratePerKg (Item.kunda item)
  else lit 0.

Definition polybagKg : num := (pcs * polybagG) / lit 1000.
Definition pipeKg : num := (pcs * pipePerPcG) / lit 1000.
Definition plasticCost : num :=
  polybagKg * Polybag.ratePerKg (BagProfile.polybag (Item.bagProfile item))
  + pipeKg * Pipe.ratePerKg (BagProfile.pipe (Item.bagProfile item)).

(* final packing charge, once, on the full bag *)
Definition packingCost : num :=
  bagKg * PackingStage.packingRatePerKg (Item.packing item).

(* totals *)
Definition circleCost : num :=
  Components.circleCost (PartCostResult.components boxCostRes)
  + Components.circleCost (PartCostResult.components coverCostRes).
Definition pressCost : num :=
  Components.pressCharge (PartCostResult.components boxCostRes)
  + Components.pressCharge (PartCostResult.components coverCostRes).
Definition inductionCost : num :=
  Components.inductionCharge (PartCostResult.components boxCostRes)
  + Components.inductionCharge (PartCostResult.components coverCostRes).
Definition polishCost : num :=
  Components.polishCharge (PartCostResult.components boxCostRes)
  + Components.polishCharge (PartCostResult.components coverCostRes).
Definition scrapCredit : num :=
  StageFlow.scrapCredit (PartCostResult.flow boxCostRes)
  + StageFlow.scrapCredit (PartCostResult.flow coverCostRes).

Definition finalCost : num :=
  boxCost + coverCost + kundaCost + plasticCost + packingCost.

Definition perKgRate : num := finalCost / bagKg.
Definition perPcRate : num := perKgRate * (totalPackedG / lit 1000).

Definition calculate : CalcResult.t num :=
  {| CalcResult.itemId := Item.id item;
     CalcResult.itemName := Item.name item;
     CalcResult.perPc :=
       {| PerPc.boxG := r2 boxAfterPolishG;
          PerPc.coverG := r2 coverAfterPolishG;
          PerPc.kundaG := r2 kundaG;
          PerPc.polybagG := r2 polybagG;
          PerPc.pipeG := r2 pipePerPcG;
          PerPc.totalPackedG := r2 totalPackedG |};
     CalcResult.pcsPerBag := r2 pcsPerBag;
     CalcResult.perKgRate := r2 perKgRate;
     CalcResult.perPcRate := r2 perPcRate;
     CalcResult.debug :=
       {| Debug.bagKg := bagKg;
          Debug.pcs := r3 pcs;
          Debug.circleKgInTotal :=
            r3 (StageFlow.circleKgIn (PartCostResult.flow boxCostRes)
                + StageFlow.circleKgIn (PartCostResult.flow coverCostRes));
          Debug.circleCost := r2 circleCost;
          Debug.pressCost := r2 pressCost;
          Debug.inductionCost := r2 inductionCost;
          Debug.polishCost := r2 polishCost;
          Debug.packingCost := r2 packingCost;
          Debug.kundaCost := r2 kundaCost;
          Debug.plasticCost := r2 plasticCost;
          Debug.scrapCredit := r2 scrapCredit;
          Debug.finalCost := r2 finalCost |} |}.
End Body.
End Calc.

Abbreviation calculate := Calc.calculate.

(** ** Binary64 instance

    [Math.round] on the specification of a float: NaN, the infinities, the
    zeros and every float with a non-negative exponent (an integer) are
    returned unchanged; otherwise the float is [(-1)^s * m * 2^(-k)] and the
    result is [floor (x + 1/2)], computed on integers, with the sign of [x]
    when it is zero ([Math.round(-0.2)] is [-0]). *)

Definition SFmathRound (x : spec_float) : spec_float :=
  match x with
  | S754_finite s m (Zneg k) =>
      let n := Z.shiftr (2 * cond_Zopp s (Zpos m) + 2 ^ Zpos k) (Zpos k + 1) in
      binary_normalize prec emax n 0 s
  | _ => x
  end.

Definition float_mathRound (x : float) : float := SF2Prim (SFmathRound (Prim2SF x)).

(** A decimal literal denotes the double nearest to its value; numerator and
    denominator of the literals of [calc.ts] are exact doubles, so the
    correctly rounded quotient is that double. *)
Definition float_of_Z (z : Z) : float :=
  match z with
  | Z0 => PrimFloat.zero
  | Zpos _ => PrimFloat.of_uint63 (Uint63.of_Z z)
  | Zneg p => PrimFloat.opp (PrimFloat.of_uint63 (Uint63.of_Z (Zpos p)))
  end.

Definition float_lit (q : Q) : float :=
  PrimFloat.div (float_of_Z (Qnum q)) (float_of_Z (Zpos (Qden q))).

Definition float_truthy (x : float) : bool :=
  negb (PrimFloat.is_zero x || PrimFloat.is_nan x).

#[export] Instance float_JsNumber : JsNumber float := {
  lit := float_lit;
  add := PrimFloat.add;
  sub := PrimFloat.sub;
  mul := PrimFloat.mul;
  div := PrimFloat.div;
  gtb := fun x y => PrimFloat.ltb y x;
  isFinite := PrimFloat.is_finite;
  truthy := float_truthy;
  mathRound := float_mathRound;
  gtb_zero_zero := eq_refl
}.

(** ** Exact instance *)

Definition Q_mathRound (x : Q) : Q := inject_Z (Qfloor (x + (1 # 2))).

#[export] Instance Q_JsNumber : JsNumber Q := {
  lit := fun q => q;
  add := Qplus;
  sub := Qminus;
  mul := Qmult;
  div := Qdiv;
  gtb := fun x y => negb (Qle_bool x y);
  isFinite := fun _ => true;
  truthy := fun x => negb (Qeq_bool x 0);
  mathRound := Q_mathRound;
  gtb_zero_zero := eq_refl
}.

(** ** Seed data ([seed.ts], [db.ts]) *)

Section Seed.
Context {num : Type} `{JsNumber num}.

Definition defaultSettings : AppSettings.t num :=
  {| AppSettings.circleBaseRate := lit 170;
     AppSettings.circleAddPerKg := lit 5;
     AppSettings.circleExtraAddPerKg := lit 0;
     AppSettings.bagStandardKg := lit 80 |}.

Definition seedScrap : ScrapReturn.t num :=
  {| ScrapReturn.enabled := true; ScrapReturn.ratePerKg := lit 50 |}.

Definition HEAVY_BAG_225_135 (poly pipeW : num) : BagProfile.t num :=
  {| BagProfile.name := BagProfile.heavy;
     BagProfile.polybag :=
       {| Polybag.sizeIn := poly; Polybag.gauge := lit 225;
          Polybag.ratePerKg := lit 135 |};
     BagProfile.pipe :=
       {| Pipe.widthIn := pipeW; Pipe.lengthIn := lit 25;
          Pipe.gauge := lit 225; Pipe.pcsPerPipe := lit 8;
          Pipe.ratePerKg := lit 135 |} |}.

Definition LIGHT_BAG_100_150 (poly pipeW : num) : BagProfile.t num :=
  {| BagProfile.name := BagProfile.light;
     BagProfile.polybag :=
       {| Polybag.sizeIn := poly; Polybag.gauge := lit 100;
          Polybag.ratePerKg := lit 150 |};
     BagProfile.pipe :=
       {| Pipe.widthIn := pipeW; Pipe.lengthIn := lit 25;
          Pipe.gauge := lit 100; Pipe.pcsPerPipe := lit 8;
          Pipe.ratePerKg := lit 150 |} |}.

Definition DEFAULT_INDUCTION : InductionStage.t num :=
  {| InductionStage.enabled := false; InductionStage.ratePerKg := lit 10 |}.

Definition seedPolish : PolishStage.t num :=
  {| PolishStage.ratePerKg := lit 72; PolishStage.wastagePct := lit 2;
     PolishStage.tutPct := lit 2; PolishStage.scrapReturn := seedScrap |}.

Definition seedPacking : PackingStage.t num :=
  {| PackingStage.packingRatePerKg := lit 10; PackingStage.tutPct := lit 2;
     PackingStage.scrapReturn := seedScrap |}.

Definition seedPart (l : PartSpec.partLabel) (circle rate actual job tut : num)
    (ind : option (InductionStage.t num)) : PartSpec.t num :=
  {| PartSpec.label := l;
     PartSpec.circleSizeIn := circle;
     PartSpec.thicknessMm := lit 0.26;
     PartSpec.circleRatePerKg := JsUndefined;
     PartSpec.press :=
       {| PressStage.ratePerKg := rate;
          PressStage.actualWastagePct := actual;
          PressStage.jobWastagePct := job;
          PressStage.tutPct := tut;
          PressStage.scrapReturn := seedScrap |};
     PartSpec.induction := ind |}.

(** [bellyItem(7, 'heavy')], with the identifier fixed. *)
Definition belly7heavy : Item.t num :=
  {| Item.id := "it_1";
     Item.name := "Belly 7in (heavy)";
     Item.box := seedPart PartSpec.box (lit 7) (lit 20) (lit 4) (lit 8) (lit 3)
                   (Some DEFAULT_INDUCTION);
     Item.cover := seedPart PartSpec.cover (lit 5.5) (lit 14) (lit 0) (lit 6) (lit 2)
                     (Some DEFAULT_INDUCTION);
     Item.kunda :=
       {| KundaSpec.enabled := false; KundaSpec.weightG := lit 0;
          KundaSpec.ratePerKg := lit 205 |};
     Item.bagProfile := HEAVY_BAG_225_135 (lit 8) (lit 7);
     Item.polish := seedPolish;
     Item.packing := seedPacking |}.

(** [plainItem(8, 'light')] with induction switched on for both parts
    (the editor's "enabled" box; the rate stays the seed's 10). *)
Definition inductionOn : InductionStage.t num :=
  {| InductionStage.enabled := true; InductionStage.ratePerKg := lit 10 |}.

Definition plain8lightInduction : Item.t num :=
  {| Item.id := "it_2";
     Item.name := "Plain 8in (light)";
     Item.box := seedPart PartSpec.box (lit 7.5) (lit 16) (lit 4) (lit 8) (lit 3)
                   (Some inductionOn);
     Item.cover := seedPart PartSpec.cover (lit 6) (lit 14) (lit 0) (lit 6) (lit 2)
                     (Some inductionOn);
     Item.kunda :=
       {| KundaSpec.enabled := false; KundaSpec.weightG := lit 0;
          KundaSpec.ratePerKg := lit 205 |};
     Item.bagProfile := LIGHT_BAG_100_150 (lit 9) (lit 8);
     Item.polish := seedPolish;
     Item.packing := seedPacking |}.
End Seed.

(** ** Record updates and input predicates used in the statements *)

Section Updates.
Context {num : Type}.

Definition setInduction (p : PartSpec.t num)
    (i : option (InductionStage.t num)) : PartSpec.t num :=
  {| PartSpec.label := PartSpec.label p;
     PartSpec.circleSizeIn := PartSpec.circleSizeIn p;
     PartSpec.thicknessMm := PartSpec.thicknessMm p;
     PartSpec.circleRatePerKg := PartSpec.circleRatePerKg p;
     PartSpec.press := PartSpec.press p;
     PartSpec.induction := i |}.

Definition setPress (p : PartSpec.t num) (s : PressStage.t num) : PartSpec.t num :=
  {| PartSpec.label := PartSpec.label p;
     PartSpec.circleSizeIn := PartSpec.circleSizeIn p;
     PartSpec.thicknessMm := PartSpec.thicknessMm p;
     PartSpec.circleRatePerKg := PartSpec.circleRatePerKg p;
     PartSpec.press := s;
     PartSpec.induction := PartSpec.induction p |}.

Definition setPressTutPct (p : PartSpec.t num) (x : num) : PartSpec.t num :=
  setPress p
    {| PressStage.ratePerKg := PressStage.ratePerKg (PartSpec.press p);
       PressStage.actualWastagePct := PressStage.actualWastagePct (PartSpec.press p);
       PressStage.jobWastagePct := PressStage.jobWastagePct (PartSpec.press p);
       PressStage.tutPct := x;
       PressStage.scrapReturn := PressStage.scrapReturn (PartSpec.press p) |}.




Definition setPackingTutPct (s : PackingStage.t num) (x : num) : PackingStage.t num :=
  {| PackingStage.packingRatePerKg := PackingStage.packingRatePerKg s;
     PackingStage.tutPct := x;
     PackingStage.scrapReturn := PackingStage.scrapReturn s |}.

Definition setPackingRatePerKg (s : PackingStage.t num) (x : num) : PackingStage.t num :=
  {| PackingStage.packingRatePerKg := x;
     PackingStage.tutPct := PackingStage.tutPct s;
     PackingStage.scrapReturn := PackingStage.scrapReturn s |}.

Definition setBox (it : Item.t num) (p : PartSpec.t num) : Item.t num :=
  {| Item.id := Item.id it; Item.name := Item.name it;
     Item.box := p; Item.cover := Item.cover it;
     Item.kunda := Item.kunda it; Item.bagProfile := Item.bagProfile it;
     Item.polish := Item.polish it; Item.packing := Item.packing it |}.

Definition setCover (it : Item.t num) (p : PartSpec.t num) : Item.t num :=
  {| Item.id := Item.id it; Item.name := Item.name it;
     Item.box := Item.box it; Item.cover := p;
     Item.kunda := Item.kunda it; Item.bagProfile := Item.bagProfile it;
     Item.polish := Item.polish it; Item.packing := Item.packing it |}.

Definition setPacking (it : Item.t num) (s : PackingStage.t num) : Item.t num :=
  {| Item.id := Item.id it; Item.name := Item.name it;
     Item.box := Item.box it; Item.cover := Item.cover it;
     Item.kunda := Item.kunda it; Item.bagProfile := Item.bagProfile it;
     Item.polish := Item.polish it; Item.packing := s |}.

(** The fields the per-piece weights are computed from. *)
Definition sameGeometryPart (p q : PartSpec.t num) : Prop :=
  PartSpec.circleSizeIn p = PartSpec.circleSizeIn q /\
  PartSpec.thicknessMm p = PartSpec.thicknessMm q /\
  PressStage.actualWastagePct (PartSpec.press p)
  = PressStage.actualWastagePct (PartSpec.press q).

Definition sameGeometry (i1 : Item.t num) (s1 : AppSettings.t num)
    (i2 : Item.t num) (s2 : AppSettings.t num) : Prop :=
  sameGeometryPart (Item.box i1) (Item.box i2) /\
  sameGeometryPart (Item.cover i1) (Item.cover i2) /\
  PolishStage.wastagePct (Item.polish i1) = PolishStage.wastagePct (Item.polish i2) /\
  KundaSpec.enabled (Item.kunda i1) = KundaSpec.enabled (Item.kunda i2) /\
  KundaSpec.weightG (Item.kunda i1) = KundaSpec.weightG (Item.kunda i2) /\
  Polybag.sizeIn (BagProfile.polybag (Item.bagProfile i1))
  = Polybag.sizeIn (BagProfile.polybag (Item.bagProfile i2)) /\
  Polybag.gauge (BagProfile.polybag (Item.bagProfile i1))
  = Polybag.gauge (BagProfile.polybag (Item.bagProfile i2)) /\
  Pipe.widthIn (BagProfile.pipe (Item.bagProfile i1))
  = Pipe.widthIn (BagProfile.pipe (Item.bagProfile i2)) /\
  Pipe.lengthIn (BagProfile.pipe (Item.bagProfile i1))
  = Pipe.lengthIn (BagProfile.pipe (Item.bagProfile i2)) /\
  Pipe.gauge (BagProfile.pipe (Item.bagProfile i1))
  = Pipe.gauge (BagProfile.pipe (Item.bagProfile i2)) /\
  Pipe.pcsPerPipe (BagProfile.pipe (Item.bagProfile i1))
  = Pipe.pcsPerPipe (BagProfile.pipe (Item.bagProfile i2)) /\
  AppSettings.bagStandardKg s1 = AppSettings.bagStandardKg s2.
End Updates.

Section Predicates.
Context {num : Type} `{JsNumber num}.

(** Induction is absent, or disabled, or its rate is the number 0. *)
Definition noInduction (p : PartSpec.t num) : Prop :=
  match PartSpec.induction p with
  | None => True
  | Some i =>
      InductionStage.enabled i = false \/ InductionStage.ratePerKg i = lit 0
  end.

(** [x || 0] gives back [x]: [x] is a number other than NaN and -0. *)
Definition keptByOrZero (x : num) : Prop :=
  truthy x = false -> x = lit 0.
End Predicates.

(** The number interface with [Math.round] replaced by [rnd]; what does not
    change under it does not round. *)
Definition withRound {num : Type} (I : JsNumber num) (rnd : num -> num)
    : JsNumber num :=
  {| lit := @lit num I;
     add := @add num I;
     sub := @sub num I;
     mul := @mul num I;
     div := @div num I;
     gtb := @gtb num I;
     isFinite := @isFinite num I;
     truthy := @truthy num I;
     mathRound := rnd;
     gtb_zero_zero := @gtb_zero_zero num I |}.

(** The seed item [belly7heavy] with every rate, tut and job-wastage figure
    changed and the geometry kept. *)
Definition belly7heavyRepriced {num : Type} `{JsNumber num} : Item.t num :=
  {| Item.id := "it_3";
     Item.name := "Belly 7in (heavy), repriced";
     Item.box :=
       {| PartSpec.label := PartSpec.box;
          PartSpec.circleSizeIn := lit 7;
          PartSpec.thicknessMm := lit 0.26;
          PartSpec.circleRatePerKg := JsNum (lit 182.5);
          PartSpec.press :=
            {| PressStage.ratePerKg := lit 23;
               PressStage.actualWastagePct := lit 4;
               PressStage.jobWastagePct := lit 9;
               PressStage.tutPct := lit 5;
               PressStage.scrapReturn :=
                 {| ScrapReturn.enabled := false; ScrapReturn.ratePerKg := lit 40 |} |};
          PartSpec.induction := Some inductionOn |};
     Item.cover :=
       {| PartSpec.label := PartSpec.cover;
          PartSpec.circleSizeIn := lit 5.5;
          PartSpec.thicknessMm := lit 0.26;
          PartSpec.circleRatePerKg := JsNum (lit 190);
          PartSpec.press :=
            {| PressStage.ratePerKg := lit 11;
               PressStage.actualWastagePct := lit 0;
               PressStage.jobWastagePct := lit 1;
               PressStage.tutPct := lit 7;
               PressStage.scrapReturn := seedScrap |};
          PartSpec.induction := None |};
     Item.kunda :=
       {| KundaSpec.enabled := false; KundaSpec.weightG := lit 0;
          KundaSpec.ratePerKg := lit 99 |};
     Item.bagProfile :=
       {| BagProfile.name := BagProfile.custom;
          BagProfile.polybag :=
            {| Polybag.sizeIn := lit 8; Polybag.gauge := lit 225;
               Polybag.ratePerKg := lit 160 |};
          BagProfile.pipe :=
            {| Pipe.widthIn := lit 7; Pipe.lengthIn := lit 25;
               Pipe.gauge := lit 225; Pipe.pcsPerPipe := lit 8;
               Pipe.ratePerKg := lit 140 |} |};
     Item.polish :=
       {| PolishStage.ratePerKg := lit 80; PolishStage.wastagePct := lit 2;
          PolishStage.tutPct := lit 6; PolishStage.scrapReturn := seedScrap |};
     Item.packing :=
       {| PackingStage.packingRatePerKg := lit 12.5; PackingStage.tutPct := lit 4;
          PackingStage.scrapReturn :=
            {| ScrapReturn.enabled := true; ScrapReturn.ratePerKg := lit 45 |} |} |}.

Definition repricedSettings {num : Type} `{JsNumber num} : AppSettings.t num :=
  {| AppSettings.circleBaseRate := lit 200;
     AppSettings.circleAddPerKg := lit 7;
     AppSettings.circleExtraAddPerKg := lit 5;
     AppSettings.bagStandardKg := lit 80 |}.



(** ** Input conditions, on the exact instance *)

(** A stage's combined loss fraction, [1 - (1 - a/100) (1 - b/100)]. *)
Definition lossPacking (packing : PackingStage.t Q) : Q :=
  PackingStage.tutPct packing / 100.
Definition lossPolish (polish : PolishStage.t Q) : Q :=
  1 - (1 - PolishStage.tutPct polish / 100)
      * (1 - PolishStage.wastagePct polish / 100).
Definition lossPress (part : PartSpec.t Q) : Q :=
  1 - (1 - PressStage.tutPct (PartSpec.press part) / 100)
      * (1 - PressStage.jobWastagePct (PartSpec.press part) / 100).

Definition inUnit (x : Q) : Prop := 0 <= x /\ x < 1.

(** Every stage's combined loss fraction lies in [0,1). *)
Definition lossesInUnit (part : PartSpec.t Q) (polish : PolishStage.t Q)
    (packing : PackingStage.t Q) : Prop :=
  inUnit (lossPress part) /\ inUnit (lossPolish polish) /\
  inUnit (lossPacking packing).

Definition validPct (x : Q) : Prop := 0 <= x /\ x < 100.

Definition validScrap (s : ScrapReturn.t Q) : Prop := 0 < ScrapReturn.ratePerKg s.

Definition validPart (p : PartSpec.t Q) : Prop :=
  0 < PartSpec.circleSizeIn p /\ 0 < PartSpec.thicknessMm p /\
  0 < PressStage.ratePerKg (PartSpec.press p) /\
  validPct (PressStage.actualWastagePct (PartSpec.press p)) /\
  validPct (PressStage.jobWastagePct (PartSpec.press p)) /\
  validPct (PressStage.tutPct (PartSpec.press p)) /\
  validScrap (PressStage.scrapReturn (PartSpec.press p)) /\
  match PartSpec.circleRatePerKg p with
  | JsNum r => 0 < r
  | JsUndefined => True
  | _ => False
  end /\
  match PartSpec.induction p with
  | Some i => 0 < InductionStage.ratePerKg i
  | None => True
  end.

(** A valid input: percentages in [0,100), positive dimensions, rates and
    bag standard mass (the kunda weight may be 0). *)
Definition validInput (item : Item.t Q) (settings : AppSettings.t Q) : Prop :=
  validPart (Item.box item) /\ validPart (Item.cover item) /\
  0 <= KundaSpec.weightG (Item.kunda item) /\
  0 < KundaSpec.ratePerKg (Item.kunda item) /\
  0 < Polybag.sizeIn (BagProfile.polybag (Item.bagProfile item)) /\
  0 < Polybag.gauge (BagProfile.polybag (Item.bagProfile item)) /\
  0 < Polybag.ratePerKg (BagProfile.polybag (Item.bagProfile item)) /\
  0 < Pipe.widthIn (BagProfile.pipe (Item.bagProfile item)) /\
  0 < Pipe.lengthIn (BagProfile.pipe (Item.bagProfile item)) /\
  0 < Pipe.gauge (BagProfile.pipe (Item.bagProfile item)) /\
  0 < Pipe.pcsPerPipe (BagProfile.pipe (Item.bagProfile item)) /\
  0 < Pipe.ratePerKg (BagProfile.pipe (Item.bagProfile item)) /\
  0 < PolishStage.ratePerKg (Item.polish item) /\
  validPct (PolishStage.wastagePct (Item.polish item)) /\
  validPct (PolishStage.tutPct (Item.polish item)) /\
  validScrap (PolishStage.scrapReturn (Item.polish item)) /\
  0 < PackingStage.packingRatePerKg (Item.packing item) /\
  validPct (PackingStage.tutPct (Item.packing item)) /\
  validScrap (PackingStage.scrapReturn (Item.packing item)) /\
  0 < AppSettings.circleBaseRate settings /\
  0 < AppSettings.circleAddPerKg settings /\
  0 < AppSettings.circleExtraAddPerKg settings /\
  0 < AppSettings.bagStandardKg settings.

(** The seed's [item11()] ("11in Items", kunda 5 g, light bag), with box
    press rate 16, box actual wastage 3 and induction enabled at 12 per kg
    on both parts. *)
Definition item11Induction {num : Type} `{JsNumber num} : Item.t num :=
  {| Item.id := "it_4";
     Item.name := "11in Items (0.26, light bag, kunda 5g)";
     Item.box :=
       seedPart PartSpec.box (lit 11) (lit 16) (lit 3) (lit 8) (lit 2)
         (Some {| InductionStage.enabled := true;
                  InductionStage.ratePerKg := lit 12 |});
     Item.cover :=
       seedPart PartSpec.cover (lit 8.5) (lit 18) (lit 3) (lit 7) (lit 2)
         (Some {| InductionStage.enabled := true;
                  InductionStage.ratePerKg := lit 12 |});
     Item.kunda :=
       {| KundaSpec.enabled := true; KundaSpec.weightG := lit 5;
          KundaSpec.ratePerKg := lit 205 |};
     Item.bagProfile :=
       {| BagProfile.name := BagProfile.light;
          BagProfile.polybag :=
            {| Polybag.sizeIn := lit 12; Polybag.gauge := lit 100;
               Polybag.ratePerKg := lit 150 |};
          BagProfile.pipe :=
            {| Pipe.widthIn := lit 12; Pipe.lengthIn := lit 25;
               Pipe.gauge := lit 100; Pipe.pcsPerPipe := lit 6;
               Pipe.ratePerKg := lit 150 |} |};
     Item.polish := seedPolish;
     Item.packing :=
       {| PackingStage.packingRatePerKg := lit 15; PackingStage.tutPct := lit 2;
          PackingStage.scrapReturn := seedScrap |} |}.



(** An induction rate, when present, is not negative (data-model invariant:
    rates are non-negative). *)
Definition inductionRateNonneg (p : PartSpec.t Q) : Prop :=
  match PartSpec.induction p with
  | Some i => 0 <= InductionStage.ratePerKg i
  | None => True
  end.


(** ** Inputs at the edge of the domain *)

(** The seed item [belly7heavy] with the packing tut set to 100 %. *)
Definition belly7heavyTut100 {num : Type} `{JsNumber num} : Item.t num :=
  setPacking belly7heavy (setPackingTutPct seedPacking (lit 100)).

(** The divisors of the stage inversion, as written in
    [computePartForwardCost]. *)
Section Divisors.
Context {num : Type} `{JsNumber num}.
Local Open Scope js_scope.

Definition packingDivisor (packing : PackingStage.t num) : num :=
  lit 1 - Part.packTutP packing.
Definition polishDivisor (polish : PolishStage.t num) : num :=
  (lit 1 - Part.polTutP polish) * (lit 1 - Part.polWastP polish).
Definition pressDivisor (part : PartSpec.t num) : num :=
  (lit 1 - Part.pressTutP part) * (lit 1 - Part.jobWastP part).
End Divisors.

(** Infinity or NaN, on the specification of a float. *)
Definition SFnonfinite (x : spec_float) : bool :=
  match x with
  | S754_infinity _ | S754_nan => true
  | _ => false
  end.

(** Some stage's divisor is (plus or minus) zero: its combined loss
    fraction is exactly 1. *)
Definition someDivisorZero (item : Item.t float) : bool :=
  PrimFloat.is_zero (packingDivisor (Item.packing item))
  || PrimFloat.is_zero (polishDivisor (Item.polish item))
  || PrimFloat.is_zero (pressDivisor (Item.box item))
  || PrimFloat.is_zero (pressDivisor (Item.cover item)).

(** A float that is Infinity or NaN. *)
Definition nonfinite (x : float) : Prop := SFnonfinite (Prim2SF x) = true.

(** The seed item [belly7heavy] with the box press tut set to 150 %. *)
Definition belly7heavyPressTut150 {num : Type} `{JsNumber num} : Item.t num :=
  setBox belly7heavy (setPressTutPct (Item.box belly7heavy) (lit 150)).

(** ** Proof tactics *)

(** Turn the operations of the exact instance into those of [Q]. *)
Ltac js_to_Q := cbn [add sub mul div lit gtb truthy isFinite mathRound Q_JsNumber] in *.


(** [lra] with the divisions by the literal 100 turned into products. *)
Ltac qlra := unfold Qdiv in *; change (/ 100) with (1 # 100) in *; lra.

(** Decide a closed comparison of rationals by evaluation. *)
Ltac q_decide :=
  vm_compute; first [reflexivity | discriminate | (intro; discriminate)].


(** ** The calculator screen ([App.tsx], revision with the automatic add)

    The values the screen derives from its state before it calls
    [calculate]: the selected item, the circle rate it feeds to the
    engine, and the result it shows.  [useMemo] only caches; each derived
    value is a function of the state it lists. *)

Module App.
Section Derived.
Context {num : Type} `{JsNumber num}.
Local Open Scope js_scope.

(** [App.tsx] has its own copy of the fallback rate. *)
Definition fallbackCircleRate (settings : AppSettings.t num) : num :=
  AppSettings.circleBaseRate settings
  + AppSettings.circleAddPerKg settings
  + orElse (AppSettings.circleExtraAddPerKg settings) (lit 0).

Definition CIRCLE_RATE_AUTO_ADD : num := lit 3.

Variable items : list (Item.t num).
Variable selectedId : string.
Variable settings : AppSettings.t num.

Definition circleFallback : num := fallbackCircleRate settings.

(** [items.find(i => i.id === selectedId) || null] *)
Definition selected : option (Item.t num) :=
  List.find (fun i => String.eqb (Item.id i) selectedId) items.

Definition boxStored (sel : Item.t num) : JsValue num :=
  PartSpec.circleRatePerKg (Item.box sel).
Definition coverStored (sel : Item.t num) : JsValue num :=
  PartSpec.circleRatePerKg (Item.cover sel).

Definition boxBase (sel : Item.t num) : num :=
  match boxStored sel with
  | JsNum stored =>
      if isFinite stored && (stored >? lit 0) then stored else circleFallback
  | _ => circleFallback
  end.
Definition coverBase (sel : Item.t num) : num :=
  match coverStored sel with
  | JsNum stored =>
      if isFinite stored && (stored >? lit 0) then stored else circleFallback
  | _ => circleFallback
  end.

(** [{ ...part, circleRatePerKg: rate }] *)
Definition withCircleRate (p : PartSpec.t num) (rate : num) : PartSpec.t num :=
  {| PartSpec.label := PartSpec.label p;
     PartSpec.circleSizeIn := PartSpec.circleSizeIn p;
     PartSpec.thicknessMm := PartSpec.thicknessMm p;
     PartSpec.circleRatePerKg := JsNum rate;
     PartSpec.press := PartSpec.press p;
     PartSpec.induction := PartSpec.induction p |}.

(** The body of the [selectedForCalc] memo for a non-null selection. *)
Definition forCalc (sel : Item.t num) : Item.t num :=
  {| Item.id := Item.id sel;
     Item.name := Item.name sel;
     Item.box := withCircleRate (Item.box sel) (boxBase sel + CIRCLE_RATE_AUTO_ADD);
     Item.cover :=
       withCircleRate (Item.cover sel) (coverBase sel + CIRCLE_RATE_AUTO_ADD);
     Item.kunda := Item.kunda sel;
     Item.bagProfile := Item.bagProfile sel;
     Item.polish := Item.polish sel;
     Item.packing := Item.packing sel |}.

Definition selectedForCalc : option (Item.t num) :=
  match selected with
  | None => None
  | Some sel => Some (forCalc sel)
  end.

Definition result : option (CalcResult.t num) :=
  match selectedForCalc with
  | Some s => Some (calculate s settings)
  | None => None
  end.
End Derived.
End App.

(** ** Further record updates and input conditions *)

Section MoreUpdates.
Context {num : Type}.

Definition setKunda (it : Item.t num) (k : KundaSpec.t num) : Item.t num :=
  {| Item.id := Item.id it; Item.name := Item.name it;
     Item.box := Item.box it; Item.cover := Item.cover it;
     Item.kunda := k; Item.bagProfile := Item.bagProfile it;
     Item.polish := Item.polish it; Item.packing := Item.packing it |}.

Definition setPressScrapReturn (p : PartSpec.t num) (s : ScrapReturn.t num)
    : PartSpec.t num :=
  setPress p
    {| PressStage.ratePerKg := PressStage.ratePerKg (PartSpec.press p);
       PressStage.actualWastagePct := PressStage.actualWastagePct (PartSpec.press p);
       PressStage.jobWastagePct := PressStage.jobWastagePct (PartSpec.press p);
       PressStage.tutPct := PressStage.tutPct (PartSpec.press p);
       PressStage.scrapReturn := s |}.

Definition setPolishScrapReturn (s : PolishStage.t num) (r : ScrapReturn.t num)
    : PolishStage.t num :=
  {| PolishStage.ratePerKg := PolishStage.ratePerKg s;
     PolishStage.wastagePct := PolishStage.wastagePct s;
     PolishStage.tutPct := PolishStage.tutPct s;
     PolishStage.scrapReturn := r |}.

Definition setPackingScrapReturn (s : PackingStage.t num) (r : ScrapReturn.t num)
    : PackingStage.t num :=
  {| PackingStage.packingRatePerKg := PackingStage.packingRatePerKg s;
     PackingStage.tutPct := PackingStage.tutPct s;
     PackingStage.scrapReturn := r |}.
End MoreUpdates.






(** Settings with a bag standard mass of 0, and the seed item
    [belly7heavy] with 0 pieces per pipe. *)
Definition zeroBagSettings {num : Type} `{JsNumber num} : AppSettings.t num :=
  {| AppSettings.circleBaseRate := lit 170;
     AppSettings.circleAddPerKg := lit 5;
     AppSettings.circleExtraAddPerKg := lit 0;
     AppSettings.bagStandardKg := lit 0 |}.

Definition belly7heavyNoPipeCount {num : Type} `{JsNumber num} : Item.t num :=
  {| Item.id := Item.id belly7heavy;
     Item.name := Item.name belly7heavy;
     Item.box := Item.box belly7heavy;
     Item.cover := Item.cover belly7heavy;
     Item.kunda := Item.kunda belly7heavy;
     Item.bagProfile :=
       {| BagProfile.name := BagProfile.heavy;
          BagProfile.polybag := BagProfile.polybag (Item.bagProfile belly7heavy);
          BagProfile.pipe :=
            {| Pipe.widthIn := lit 7; Pipe.lengthIn := lit 25;
               Pipe.gauge := lit 225; Pipe.pcsPerPipe := lit 0;
               Pipe.ratePerKg := lit 135 |} |};
     Item.polish := Item.polish belly7heavy;
     Item.packing := Item.packing belly7heavy |}.

(** * Checks of the embedding *)

(** The decimal literals of [calc.ts] denote the doubles a JavaScript engine
    reads them as. *)
Lemma float_lit_doubles :
  float_lit 0.003 = 0x1.89374bc6a7efap-9%float /\
  float_lit 0.263 = 0x1.0d4fdf3b645a2p-2%float /\
  float_lit 263 = 263%float /\
  float_lit 254 = 254%float /\
  float_lit 3300 = 3300%float /\
  float_lit 100 = 100%float /\
  float_lit 1000 = 1000%float.
Proof. repeat split; reflexivity. Qed.

(** [Math.round] rounds half up, also below zero, keeps the sign of a zero
    result, and does not go through the inexact sum [x + 0.5]. *)
Lemma float_mathRound_examples :
  float_mathRound 2.5 = 3%float /\
  float_mathRound (-2.5) = (-2)%float /\
  float_mathRound 0.5 = 1%float /\
  float_mathRound (-0.5) = PrimFloat.neg_zero /\
  float_mathRound (-0.25) = PrimFloat.neg_zero /\
  float_mathRound 0x1.fffffffffffffp-2 = 0%float /\
  float_mathRound 0x1.ffffffffffffep+51 = 0x1.ffffffffffffep+51%float /\
  float_mathRound 0x1.fffffffffffffp+51 = 0x1p+52%float /\
  float_mathRound PrimFloat.infinity = PrimFloat.infinity /\
  float_mathRound PrimFloat.nan = PrimFloat.nan.
Proof. repeat split; reflexivity. Qed.

(** The seed item Belly 7 (heavy bag) with the default settings: both
    instances emit the same figures. *)
Lemma belly7heavy_binary64 :
  calculate (num:=float) belly7heavy defaultSettings
  = {| CalcResult.itemId := "it_1";
       CalcResult.itemName := "Belly 7in (heavy)";
       CalcResult.perPc :=
         {| PerPc.boxG := lit 47.73;
            PerPc.coverG := lit 30.7;
            PerPc.kundaG := lit 0;
            PerPc.polybagG := lit 4.36;
            PerPc.pipeG := lit 1.49;
            PerPc.totalPackedG := lit 84.28 |};
       CalcResult.pcsPerBag := lit 949.18;
       CalcResult.perKgRate := lit 293.33;
       CalcResult.perPcRate := lit 24.72;
       CalcResult.debug :=
         {| Debug.bagKg := lit 80;
            Debug.pcs := lit 949.181;
            Debug.circleKgInTotal := lit 87.546;
            Debug.circleCost := lit 15320.54;
            Debug.pressCost := lit 1396.14;
            Debug.inductionCost := lit 0;
            Debug.polishCost := lit 5469.24;
            Debug.packingCost := lit 800;
            Debug.kundaCost := lit 0;
            Debug.plasticCost := lit 750.27;
            Debug.scrapCredit := lit 269.57;
            Debug.finalCost := lit 23466.62 |} |}.
Proof. vm_compute. reflexivity. Qed.

Lemma belly7heavy_exact :
  let r := calculate (num:=Q) belly7heavy defaultSettings in
  PerPc.boxG (CalcResult.perPc r) == 47.73 /\
  PerPc.coverG (CalcResult.perPc r) == 30.7 /\
  PerPc.totalPackedG (CalcResult.perPc r) == 84.28 /\
  CalcResult.pcsPerBag r == 949.18 /\
  CalcResult.perKgRate r == 293.33 /\
  CalcResult.perPcRate r == 24.72 /\
  Debug.circleKgInTotal (CalcResult.debug r) == 87.546 /\
  Debug.circleCost (CalcResult.debug r) == 15320.54 /\
  Debug.pressCost (CalcResult.debug r) == 1396.14 /\
  Debug.polishCost (CalcResult.debug r) == 5469.24 /\
  Debug.plasticCost (CalcResult.debug r) == 750.27 /\
  Debug.scrapCredit (CalcResult.debug r) == 269.57 /\
  Debug.finalCost (CalcResult.debug r) == 23466.62.
Proof. cbv zeta. repeat split; vm_compute; reflexivity. Qed.

(** * Properties that hold for every number instance *)

Section Shape.
Context {num : Type} {I : JsNumber num}.
Local Open Scope js_scope.

(** The per-piece gram figures read the geometry fields only. *)
Lemma boxAfterPolishG_geometry (i1 i2 : Item.t num) :
  sameGeometryPart (Item.box i1) (Item.box i2) ->
  PolishStage.wastagePct (Item.polish i1) = PolishStage.wastagePct (Item.polish i2) ->
  Calc.boxAfterPolishG i1 = Calc.boxAfterPolishG i2.
Proof.
  intros (Hd & Ht & Ha) Hw.
  unfold Calc.boxAfterPolishG, Calc.boxAfterPressG, Calc.boxCircleG.
  now rewrite Hd, Ht, Ha, Hw.
Qed.

Lemma coverAfterPolishG_geometry (i1 i2 : Item.t num) :
  sameGeometryPart (Item.cover i1) (Item.cover i2) ->
  PolishStage.wastagePct (Item.polish i1) = PolishStage.wastagePct (Item.polish i2) ->
  Calc.coverAfterPolishG i1 = Calc.coverAfterPolishG i2.
Proof.
  intros (Hd & Ht & Ha) Hw.
  unfold Calc.coverAfterPolishG, Calc.coverAfterPressG, Calc.coverCircleG.
  now rewrite Hd, Ht, Ha, Hw.
Qed.

Lemma packaging_geometry (i1 i2 : Item.t num) (s1 s2 : AppSettings.t num) :
  sameGeometry i1 s1 i2 s2 ->
  Calc.kundaG i1 = Calc.kundaG i2 /\
  Calc.polybagG i1 = Calc.polybagG i2 /\
  Calc.pipePerPcG i1 = Calc.pipePerPcG i2.
Proof.
  intros (_ & _ & _ & Hke & Hkw & Hps & Hpg & Hw & Hl & Hg & Hn & _).
  unfold Calc.kundaG, Calc.polybagG, Calc.pipePerPcG.
  now rewrite Hke, Hkw, Hps, Hpg, Hw, Hl, Hg, Hn.
Qed.

Lemma totalPackedG_geometry (i1 i2 : Item.t num) (s1 s2 : AppSettings.t num) :
  sameGeometry i1 s1 i2 s2 ->
  Calc.totalPackedG i1 = Calc.totalPackedG i2.
Proof.
  intros Hg.
  destruct (packaging_geometry i1 i2 s1 s2 Hg) as (Hk & Hp & Hq).
  destruct Hg as (Hb & Hc & Hw & _).
  unfold Calc.totalPackedG.
  now rewrite (boxAfterPolishG_geometry _ _ Hb Hw),
              (coverAfterPolishG_geometry _ _ Hc Hw), Hk, Hp, Hq.
Qed.

(** A part without a chargeable induction stage is costed as the same
    part with the stage removed. *)
Lemma inductionCharge_noInduction (req : num) (p : PartSpec.t num)
    (polish : PolishStage.t num) (packing : PackingStage.t num) :
  noInduction p -> Part.inductionCharge req p polish packing = lit 0.
Proof.
  unfold noInduction, Part.inductionCharge, Part.inductionEnabled,
    Part.inductionRate.
  destruct (PartSpec.induction p) as [i|]; [|reflexivity].
  intros [He | Hr].
  - now rewrite He.
  - rewrite Hr, gtb_zero_zero, andb_false_r. reflexivity.
Qed.

Lemma inductionCharge_setInduction_None (req : num) (p : PartSpec.t num)
    (polish : PolishStage.t num) (packing : PackingStage.t num) :
  Part.inductionCharge req (setInduction p None) polish packing = lit 0.
Proof. reflexivity. Qed.

Lemma computePartForwardCost_noInduction (req : num) (p : PartSpec.t num)
    (polish : PolishStage.t num) (packing : PackingStage.t num) (rate : num) :
  noInduction p ->
  computePartForwardCost req p polish packing rate
  = computePartForwardCost req (setInduction p None) polish packing rate.
Proof.
  intros Hn.
  unfold Part.computePartForwardCost, Part.flow, Part.partRatePerKgPacked,
    Part.partCost.
  rewrite (inductionCharge_noInduction req p polish packing Hn).
  rewrite inductionCharge_setInduction_None.
  reflexivity.
Qed.

Lemma calculate_box_noInduction (item : Item.t num) (settings : AppSettings.t num) :
  noInduction (Item.box item) ->
  calculate item settings
  = calculate (setBox item (setInduction (Item.box item) None)) settings.
Proof.
  intros Hn.
  pose proof (fun req rate =>
    computePartForwardCost_noInduction req (Item.box item) (Item.polish item)
      (Item.packing item) rate Hn) as E.
  unfold Calc.calculate, Calc.perPcRate, Calc.perKgRate, Calc.finalCost,
    Calc.circleCost, Calc.pressCost, Calc.inductionCost, Calc.polishCost,
    Calc.scrapCredit, Calc.boxCost, Calc.boxCostRes.
  rewrite E. reflexivity.
Qed.

Lemma calculate_cover_noInduction (item : Item.t num) (settings : AppSettings.t num) :
  noInduction (Item.cover item) ->
  calculate item settings
  = calculate (setCover item (setInduction (Item.cover item) None)) settings.
Proof.
  intros Hn.
  pose proof (fun req rate =>
    computePartForwardCost_noInduction req (Item.cover item) (Item.polish item)
      (Item.packing item) rate Hn) as E.
  unfold Calc.calculate, Calc.perPcRate, Calc.perKgRate, Calc.finalCost,
    Calc.circleCost, Calc.pressCost, Calc.inductionCost, Calc.polishCost,
    Calc.scrapCredit, Calc.coverCost, Calc.coverCostRes.
  rewrite E. reflexivity.
Qed.

(** The packing rate per kg is no input of the per-part costing. *)
Lemma computePartForwardCost_packingRate (req : num) (p : PartSpec.t num)
    (polish : PolishStage.t num) (packing : PackingStage.t num) (rate r : num) :
  computePartForwardCost req p polish (setPackingRatePerKg packing r) rate
  = computePartForwardCost req p polish packing rate.
Proof. reflexivity. Qed.
End Shape.

(** * Claims that hold for every number instance *)

(** C10: two inputs that agree on the geometry and mass fields (circle
    sizes, thicknesses, press actual-wastage of each part, polish wastage,
    kunda enabled and weight, polybag and pipe dimensions, gauges, pieces
    per pipe, bag standard mass) get identical per-piece weight fields and
    identical pcsPerBag, whatever their rates, tut and job-wastage
    percentages, scrap-return and circle-rate fields are. *)
Theorem C10_weights_read_geometry_only :
  forall (num : Type) (I : JsNumber num)
         (i1 i2 : Item.t num) (s1 s2 : AppSettings.t num),
    sameGeometry i1 s1 i2 s2 ->
    CalcResult.perPc (calculate i1 s1) = CalcResult.perPc (calculate i2 s2) /\
    CalcResult.pcsPerBag (calculate i1 s1) = CalcResult.pcsPerBag (calculate i2 s2).
Proof.
  intros num I i1 i2 s1 s2 Hg.
  pose proof (totalPackedG_geometry i1 i2 s1 s2 Hg) as Ht.
  destruct (packaging_geometry i1 i2 s1 s2 Hg) as (Hk & Hp & Hq).
  destruct Hg as (Hb & Hc & Hw & Hrest).
  pose proof (boxAfterPolishG_geometry i1 i2 Hb Hw) as Hbox.
  pose proof (coverAfterPolishG_geometry i1 i2 Hc Hw) as Hcov.
  assert (Hbag : AppSettings.bagStandardKg s1 = AppSettings.bagStandardKg s2)
    by (decompose [and] Hrest; assumption).
  split.
  - cbn [calculate CalcResult.perPc].
    now rewrite Hbox, Hcov, Hk, Hp, Hq, Ht.
  - cbn [calculate CalcResult.pcsPerBag].
    unfold Calc.pcsPerBag, Calc.bagKg.
    now rewrite Ht, Hbag.
Qed.

Lemma C10_witness :
  sameGeometry (num:=float) belly7heavy defaultSettings
               belly7heavyRepriced repricedSettings /\
  CalcResult.perPc (calculate (num:=float) belly7heavy defaultSettings)
  = CalcResult.perPc (calculate belly7heavyRepriced repricedSettings) /\
  CalcResult.pcsPerBag (calculate (num:=float) belly7heavy defaultSettings)
  = CalcResult.pcsPerBag (calculate belly7heavyRepriced repricedSettings).
Proof.
  assert (G : sameGeometry (num:=float) belly7heavy defaultSettings
                belly7heavyRepriced repricedSettings)
    by (repeat split; reflexivity).
  split; [exact G|].
  exact (C10_weights_read_geometry_only float float_JsNumber belly7heavy
           belly7heavyRepriced defaultSettings repricedSettings G).
Defined.

(** C9: when a part's induction stage is absent, or disabled, or has rate
    0, that part's induction charge is exactly 0 and [calculate] returns
    the very result it returns for the same input with the stage removed;
    when this holds for both parts the induction total is 0 + 0, and on
    binary64 the reported inductionCost is exactly 0; in exact arithmetic
    the part cost is then circle + press + polish - scrap credit. *)
Theorem C9_induction_off_changes_nothing :
  (forall (num : Type) (I : JsNumber num)
          (item : Item.t num) (settings : AppSettings.t num),
     (noInduction (Item.box item) ->
        Part.inductionCharge (Calc.totalBoxKgPacked item settings)
          (Item.box item) (Item.polish item) (Item.packing item) = lit 0 /\
        calculate item settings
        = calculate (setBox item (setInduction (Item.box item) None)) settings) /\
     (noInduction (Item.cover item) ->
        Part.inductionCharge (Calc.totalCoverKgPacked item settings)
          (Item.cover item) (Item.polish item) (Item.packing item) = lit 0 /\
        calculate item settings
        = calculate (setCover item (setInduction (Item.cover item) None)) settings) /\
     (noInduction (Item.box item) -> noInduction (Item.cover item) ->
        Calc.inductionCost item settings = add (lit 0) (lit 0)))
  /\
  (forall (item : Item.t float) (settings : AppSettings.t float),
     noInduction (Item.box item) -> noInduction (Item.cover item) ->
     Debug.inductionCost (CalcResult.debug (calculate item settings))
     = PrimFloat.zero)
  /\
  (forall (req rate : Q) (part : PartSpec.t Q) (polish : PolishStage.t Q)
          (packing : PackingStage.t Q),
     noInduction part ->
     Part.partCost req part polish packing rate
     == Part.circleCost req part polish packing rate
        + Part.pressCharge req part polish packing
        + Part.polishCharge req polish packing
        - Part.scrapCreditTotal req part polish packing).
Proof.
  assert (G : forall (num : Type) (I : JsNumber num)
                (item : Item.t num) (settings : AppSettings.t num),
             noInduction (Item.box item) -> noInduction (Item.cover item) ->
             Calc.inductionCost item settings = add (lit 0) (lit 0)).
  { intros num I item settings Hb Hc.
    unfold Calc.inductionCost, Calc.boxCostRes, Calc.coverCostRes.
    cbn [computePartForwardCost PartCostResult.components
         Components.inductionCharge].
    now rewrite !inductionCharge_noInduction. }
  split; [|split].
  - intros num I item settings. repeat split.
    + now apply inductionCharge_noInduction.
    + now apply calculate_box_noInduction.
    + now apply inductionCharge_noInduction.
    + now apply calculate_cover_noInduction.
    + now apply G.
  - intros item settings Hb Hc.
    cbn [calculate CalcResult.debug Debug.inductionCost].
    rewrite (G float float_JsNumber item settings Hb Hc).
    reflexivity.
  - intros req rate part polish packing Hn.
    unfold Part.partCost.
    rewrite (inductionCharge_noInduction req part polish packing Hn).
    cbn [add sub lit Q_JsNumber]. ring.
Qed.

Lemma C9_witness :
  noInduction (num:=float) (Item.box belly7heavy) /\
  noInduction (num:=float) (Item.cover belly7heavy) /\
  calculate (num:=float) belly7heavy defaultSettings
  = calculate (setBox belly7heavy (setInduction (Item.box belly7heavy) None))
      defaultSettings /\
  Debug.inductionCost
    (CalcResult.debug (calculate (num:=float) belly7heavy defaultSettings))
  = PrimFloat.zero.
Proof.
  assert (Hb : noInduction (num:=float) (Item.box belly7heavy))
    by (left; reflexivity).
  assert (Hc : noInduction (num:=float) (Item.cover belly7heavy))
    by (left; reflexivity).
  split; [exact Hb|]. split; [exact Hc|]. split.
  - exact (proj2 (proj1 (proj1 C9_induction_off_changes_nothing
             float float_JsNumber belly7heavy defaultSettings) Hb)).
  - exact (proj1 (proj2 C9_induction_off_changes_nothing)
             belly7heavy defaultSettings Hb Hc).
Defined.

(** C7: the resolved circle rate is the part's own circleRatePerKg when
    that field is a number, finite and greater than 0; in every other case
    (absent, not a number, not finite, zero or negative) it is
    circleBaseRate + circleAddPerKg + circleExtraAddPerKg.  The settings'
    circleExtraAddPerKg is read through [|| 0], which gives the field back
    for every number but NaN and -0. *)
Theorem C7_resolved_circle_rate :
  forall (num : Type) (I : JsNumber num)
         (part : PartSpec.t num) (settings : AppSettings.t num),
    keptByOrZero (AppSettings.circleExtraAddPerKg settings) ->
    resolvePartCircleRatePerKg part settings
    = match PartSpec.circleRatePerKg part with
      | JsNum explicit =>
          if isFinite explicit && gtb explicit (lit 0) then explicit
          else add (add (AppSettings.circleBaseRate settings)
                        (AppSettings.circleAddPerKg settings))
                   (AppSettings.circleExtraAddPerKg settings)
      | _ => add (add (AppSettings.circleBaseRate settings)
                      (AppSettings.circleAddPerKg settings))
                 (AppSettings.circleExtraAddPerKg settings)
      end.
Proof.
  intros num I part settings Hk.
  assert (F : fallbackCircleRate settings
              = add (add (AppSettings.circleBaseRate settings)
                         (AppSettings.circleAddPerKg settings))
                    (AppSettings.circleExtraAddPerKg settings)).
  { unfold fallbackCircleRate, orElse.
    destruct (truthy (AppSettings.circleExtraAddPerKg settings)) eqn:E.
    - reflexivity.
    - now rewrite (Hk E). }
  unfold resolvePartCircleRatePerKg.
  destruct (PartSpec.circleRatePerKg part) as [ | |b|explicit|s];
    try exact F.
  destruct (isFinite explicit && gtb explicit (lit 0)); [reflexivity|exact F].
Qed.

Lemma C7_witness :
  keptByOrZero (num:=float) (AppSettings.circleExtraAddPerKg defaultSettings) /\
  resolvePartCircleRatePerKg (num:=float) (Item.box belly7heavyRepriced)
    defaultSettings = lit 182.5 /\
  resolvePartCircleRatePerKg (num:=float) (Item.box belly7heavy)
    defaultSettings = lit 175.
Proof.
  assert (K : keptByOrZero (num:=float)
                (AppSettings.circleExtraAddPerKg defaultSettings))
    by (intros _; reflexivity).
  split; [exact K|]. split.
  - rewrite (C7_resolved_circle_rate float float_JsNumber
               (Item.box belly7heavyRepriced) defaultSettings K).
    reflexivity.
  - rewrite (C7_resolved_circle_rate float float_JsNumber
               (Item.box belly7heavy) defaultSettings K).
    reflexivity.
Defined.

(** C6: piecesPerBag is bagStandardKg * 1000 / totalPackedG (80000 /
    totalPackedG for an 80 kg bag), and that unrounded value is what the
    packed batch mass of box and of cover is derived from; no value of the
    pipeline depends on [Math.round], which is applied only to the fields
    of the returned record: 2 decimals for weights and currency, 3 decimals
    for pcs and circleKgInTotal. *)
Theorem C6_pieces_per_bag_unrounded :
  (forall (num : Type) (I : JsNumber num)
          (item : Item.t num) (settings : AppSettings.t num),
     Calc.pcsPerBag item settings
     = div (mul (AppSettings.bagStandardKg settings) (lit 1000))
           (Calc.totalPackedG item) /\
     Calc.totalBoxKgPacked item settings
     = div (mul (Calc.pcsPerBag item settings) (Calc.boxAfterPolishG item))
           (lit 1000) /\
     Calc.totalCoverKgPacked item settings
     = div (mul (Calc.pcsPerBag item settings) (Calc.coverAfterPolishG item))
           (lit 1000) /\
     (forall rnd : num -> num,
        @Calc.totalPackedG num (withRound I rnd) item = Calc.totalPackedG item /\
        @Calc.pcsPerBag num (withRound I rnd) item settings
        = Calc.pcsPerBag item settings /\
        @Calc.totalBoxKgPacked num (withRound I rnd) item settings
        = Calc.totalBoxKgPacked item settings /\
        @Calc.totalCoverKgPacked num (withRound I rnd) item settings
        = Calc.totalCoverKgPacked item settings /\
        @Calc.boxCostRes num (withRound I rnd) item settings
        = Calc.boxCostRes item settings /\
        @Calc.coverCostRes num (withRound I rnd) item settings
        = Calc.coverCostRes item settings /\
        @Calc.kundaCost num (withRound I rnd) item settings
        = Calc.kundaCost item settings /\
        @Calc.plasticCost num (withRound I rnd) item settings
        = Calc.plasticCost item settings /\
        @Calc.packingCost num (withRound I rnd) item settings
        = Calc.packingCost item settings /\
        @Calc.finalCost num (withRound I rnd) item settings
        = Calc.finalCost item settings /\
        @Calc.perKgRate num (withRound I rnd) item settings
        = Calc.perKgRate item settings /\
        @Calc.perPcRate num (withRound I rnd) item settings
        = Calc.perPcRate item settings) /\
     CalcResult.perPc (calculate item settings)
     = {| PerPc.boxG := r2 (Calc.boxAfterPolishG item);
          PerPc.coverG := r2 (Calc.coverAfterPolishG item);
          PerPc.kundaG := r2 (Calc.kundaG item);
          PerPc.polybagG := r2 (Calc.polybagG item);
          PerPc.pipeG := r2 (Calc.pipePerPcG item);
          PerPc.totalPackedG := r2 (Calc.totalPackedG item) |} /\
     CalcResult.pcsPerBag (calculate item settings)
     = r2 (Calc.pcsPerBag item settings) /\
     CalcResult.perKgRate (calculate item settings)
     = r2 (Calc.perKgRate item settings) /\
     CalcResult.perPcRate (calculate item settings)
     = r2 (Calc.perPcRate item settings) /\
     Debug.pcs (CalcResult.debug (calculate item settings))
     = r3 (Calc.pcsPerBag item settings) /\
     Debug.circleKgInTotal (CalcResult.debug (calculate item settings))
     = r3 (add (StageFlow.circleKgIn
                  (PartCostResult.flow (Calc.boxCostRes item settings)))
               (StageFlow.circleKgIn
                  (PartCostResult.flow (Calc.coverCostRes item settings)))) /\
     Debug.finalCost (CalcResult.debug (calculate item settings))
     = r2 (Calc.finalCost item settings))
  /\
  (forall (item : Item.t float) (settings : AppSettings.t float),
     AppSettings.bagStandardKg settings = lit 80 ->
     Calc.pcsPerBag item settings
     = PrimFloat.div (lit 80000) (Calc.totalPackedG item))
  /\
  (forall (item : Item.t Q) (settings : AppSettings.t Q),
     AppSettings.bagStandardKg settings == 80 ->
     Calc.pcsPerBag item settings == 80000 / Calc.totalPackedG item).
Proof.
  split; [|split].
  - intros num I item settings.
    repeat match goal with |- _ /\ _ => split end;
      try reflexivity.
    intros rnd.
    repeat match goal with |- _ /\ _ => split end; reflexivity.
  - intros item settings Hb.
    unfold Calc.pcsPerBag, Calc.bagKg. rewrite Hb. reflexivity.
  - intros item settings Hb.
    unfold Calc.pcsPerBag, Calc.bagKg. cbn [mul div lit Q_JsNumber].
    rewrite Hb. reflexivity.
Qed.

Lemma C6_witness :
  AppSettings.bagStandardKg (num:=float) defaultSettings = lit 80 /\
  Calc.pcsPerBag (num:=float) belly7heavy defaultSettings
  = PrimFloat.div (lit 80000) (Calc.totalPackedG belly7heavy).
Proof.
  assert (Hb : AppSettings.bagStandardKg (num:=float) defaultSettings = lit 80)
    by reflexivity.
  split; [exact Hb|].
  exact (proj1 (proj2 C6_pieces_per_bag_unrounded)
           belly7heavy defaultSettings Hb).
Defined.

(** * Exact arithmetic: the stage inversion and the billing rules *)

Lemma Qmult_pos_factors (a b : Q) : 0 < a * b -> ~ a == 0 /\ ~ b == 0.
Proof.
  intros H; split; intros E; rewrite E in H;
    [rewrite Qmult_0_l in H | rewrite Qmult_0_r in H];
    exact (Qlt_irrefl 0 H).
Qed.





Lemma keep_polish_pos (polish : PolishStage.t Q) :
  inUnit (lossPolish polish) ->
  0 < (1 - PolishStage.tutPct polish / 100)
      * (1 - PolishStage.wastagePct polish / 100).
Proof. unfold inUnit, lossPolish. intros [_ H]. qlra. Qed.

Lemma keep_press_pos (part : PartSpec.t Q) :
  inUnit (lossPress part) ->
  0 < (1 - PressStage.tutPct (PartSpec.press part) / 100)
      * (1 - PressStage.jobWastagePct (PartSpec.press part) / 100).
Proof. unfold inUnit, lossPress. intros [_ H]. qlra. Qed.

(** Percentages in [0,100) give combined loss fractions in [0,1). *)
Lemma validPct_inUnit2 (a b : Q) :
  validPct a -> validPct b -> inUnit (1 - (1 - a / 100) * (1 - b / 100)).
Proof.
  unfold validPct, inUnit. intros [Ha0 Ha1] [Hb0 Hb1].
  assert (0 < 1 - a / 100 /\ 1 - a / 100 <= 1) as [Hx0 Hx1] by qlra.
  assert (0 < 1 - b / 100 /\ 1 - b / 100 <= 1) as [Hy0 Hy1] by qlra.
  set (x := 1 - a / 100) in *. set (y := 1 - b / 100) in *.
  split; nra.
Qed.



(** A valid input has every combined loss fraction in [0,1), for both
    parts. *)
Lemma validInput_lossesInUnit (item : Item.t Q) (settings : AppSettings.t Q) :
  validInput item settings ->
  lossesInUnit (Item.box item) (Item.polish item) (Item.packing item) /\
  lossesInUnit (Item.cover item) (Item.polish item) (Item.packing item).
Proof.
  intros (Hb & Hc & _ & _ & _ & _ & _ & _ & _ & _ & _ & _ & _
          & Hpw & Hpt & _ & _ & Hkt & _).
  destruct Hb as (_ & _ & _ & _ & Hbj & Hbt & _).
  destruct Hc as (_ & _ & _ & _ & Hcj & Hct & _).
  assert (Hk : inUnit (lossPacking (Item.packing item))).
  { unfold lossPacking, inUnit. destruct Hkt as [K0 K1]. split; qlra. }
  split; (split; [|split]).
  - apply validPct_inUnit2; assumption.
  - apply validPct_inUnit2; assumption.
  - exact Hk.
  - apply validPct_inUnit2; assumption.
  - apply validPct_inUnit2; assumption.
  - exact Hk.
Qed.

(** Stage outputs: what the press contractor delivers is the polish input,
    what the polisher delivers is the packing input. *)
Lemma pressDelivered_is_polishInput (req : Q) (part : PartSpec.t Q)
    (polish : PolishStage.t Q) (packing : PackingStage.t Q) :
  inUnit (lossPress part) ->
  Part.pressDeliveredKalaKg req part polish packing
  == Part.polishInputKalaKg req polish packing.
Proof.
  intros Hpr.
  destruct (Qmult_pos_factors _ _ (keep_press_pos part Hpr)) as [Ha Hb].
  unfold Part.pressDeliveredKalaKg, Part.pressInputCircleKg, Part.pressTutP,
    Part.jobWastP, Part.press, pct.
  generalize (Part.polishInputKalaKg req polish packing). intros m.
  js_to_Q. field. split; intros E; [apply Hb | apply Ha]; qlra.
Qed.

Lemma polishDelivered_is_packingInput (req : Q) (polish : PolishStage.t Q)
    (packing : PackingStage.t Q) :
  inUnit (lossPolish polish) ->
  Part.polishDeliveredKg req polish packing == Part.packingInputKg req packing.
Proof.
  intros Hpo.
  destruct (Qmult_pos_factors _ _ (keep_polish_pos polish Hpo)) as [Ha Hb].
  unfold Part.polishDeliveredKg, Part.polishInputKalaKg, Part.polTutP,
    Part.polWastP, pct.
  generalize (Part.packingInputKg req packing). intros m.
  js_to_Q. field. split; intros E; [apply Hb | apply Ha]; qlra.
Qed.

Lemma inductionCharge_exact (req : Q) (part : PartSpec.t Q)
    (polish : PolishStage.t Q) (packing : PackingStage.t Q) :
  inductionRateNonneg part ->
  Part.inductionCharge req part polish packing
  == if Part.inductionEnabled part
     then Part.pressDeliveredKalaKg req part polish packing
          * Part.inductionRate part
     else 0.
Proof.
  unfold inductionRateNonneg, Part.inductionCharge, Part.inductionEnabled,
    Part.inductionRate.
  destruct (PartSpec.induction part) as [i|]; [|reflexivity].
  intros Hr. destruct (InductionStage.enabled i); [|reflexivity].
  js_to_Q. cbn [andb].
  destruct (Qle_bool (InductionStage.ratePerKg i) 0) eqn:E; cbn [negb].
  - apply Qle_bool_iff in E.
    assert (Z : InductionStage.ratePerKg i == 0) by (apply Qle_antisym; assumption).
    rewrite Z. ring.
  - reflexivity.
Qed.

(** C3: each paid stage of a part is billed on the mass it delivers back.
    On every number instance the press charge is pressDeliveredKalaKg x
    press rate, the polish charge is polishDeliveredKg x polish rate, the
    induction charge is pressDeliveredKalaKg x induction rate when induction
    is enabled with a rate above 0 and is 0 otherwise, the circle cost is
    the press input x the circle rate ([calculate] passes the part's
    resolved rate), and the part cost is circle + press + induction + polish
    - scrap credit, the credit being scrap mass x scrap rate for each of
    press, polish and packing whose scrap return is enabled.  The packing
    rate is no input of a part's cost; the packing charge is bagStandardKg x
    packingRatePerKg, added once in finalCost.  With every combined loss
    fraction in [0,1) the delivered masses are the stage outputs (press
    output = polish input, polish output = packing input), and for an
    induction rate that is not negative the induction charge is press
    output x rate whenever induction is enabled. *)
Theorem C3_billing_on_delivered_mass :
  (forall (num : Type) (I : JsNumber num) (req rate : num)
          (part : PartSpec.t num) (polish : PolishStage.t num)
          (packing : PackingStage.t num),
     let res := computePartForwardCost req part polish packing rate in
     let c := PartCostResult.components res in
     let pressDelivered := Part.pressDeliveredKalaKg req part polish packing in
     Components.pressCharge c
     = mul pressDelivered (PressStage.ratePerKg (PartSpec.press part)) /\
     Components.polishCharge c
     = mul (Part.polishDeliveredKg req polish packing)
           (PolishStage.ratePerKg polish) /\
     Components.inductionCharge c
     = match PartSpec.induction part with
       | Some i =>
           if InductionStage.enabled i && gtb (InductionStage.ratePerKg i) (lit 0)
           then mul pressDelivered (InductionStage.ratePerKg i)
           else lit 0
       | None => lit 0
       end /\
     Components.circleCost c
     = mul (Part.pressInputCircleKg req part polish packing) rate /\
     Components.scrapCreditPress c
     = (if ScrapReturn.enabled (PressStage.scrapReturn (PartSpec.press part))
        then mul (Part.pressTutKg req part polish packing)
                 (ScrapReturn.ratePerKg (PressStage.scrapReturn (PartSpec.press part)))
        else lit 0) /\
     Components.scrapCreditPolish c
     = (if ScrapReturn.enabled (PolishStage.scrapReturn polish)
        then mul (Part.polishTutKg req polish packing)
                 (ScrapReturn.ratePerKg (PolishStage.scrapReturn polish))
        else lit 0) /\
     Components.scrapCreditPacking c
     = (if ScrapReturn.enabled (PackingStage.scrapReturn packing)
        then mul (Part.packingTutKg req packing)
                 (ScrapReturn.ratePerKg (PackingStage.scrapReturn packing))
        else lit 0) /\
     PartCostResult.partCostExcludingFinalPackingCharge res
     = sub (add (add (add (Components.circleCost c) (Components.pressCharge c))
                     (Components.inductionCharge c))
                (Components.polishCharge c))
           (add (add (Components.scrapCreditPress c)
                     (Components.scrapCreditPolish c))
                (Components.scrapCreditPacking c)) /\
     (forall r : num,
        computePartForwardCost req part polish (setPackingRatePerKg packing r) rate
        = res))
  /\
  (forall (num : Type) (I : JsNumber num)
          (item : Item.t num) (settings : AppSettings.t num),
     Calc.boxCostRes item settings
     = computePartForwardCost (Calc.totalBoxKgPacked item settings)
         (Item.box item) (Item.polish item) (Item.packing item)
         (resolvePartCircleRatePerKg (Item.box item) settings) /\
     Calc.coverCostRes item settings
     = computePartForwardCost (Calc.totalCoverKgPacked item settings)
         (Item.cover item) (Item.polish item) (Item.packing item)
         (resolvePartCircleRatePerKg (Item.cover item) settings) /\
     Calc.packingCost item settings
     = mul (AppSettings.bagStandardKg settings)
           (PackingStage.packingRatePerKg (Item.packing item)) /\
     Calc.finalCost item settings
     = add (add (add (add (PartCostResult.partCostExcludingFinalPackingCharge
                             (Calc.boxCostRes item settings))
                          (PartCostResult.partCostExcludingFinalPackingCharge
                             (Calc.coverCostRes item settings)))
                     (Calc.kundaCost item settings))
                (Calc.plasticCost item settings))
           (mul (AppSettings.bagStandardKg settings)
                (PackingStage.packingRatePerKg (Item.packing item))))
  /\
  (forall (req : Q) (part : PartSpec.t Q) (polish : PolishStage.t Q)
          (packing : PackingStage.t Q),
     lossesInUnit part polish packing ->
     inductionRateNonneg part ->
     let pressOutput := Part.polishInputKalaKg req polish packing in
     let polishOutput := Part.packingInputKg req packing in
     Part.pressDeliveredKalaKg req part polish packing == pressOutput /\
     Part.polishDeliveredKg req polish packing == polishOutput /\
     Part.pressCharge req part polish packing
     == pressOutput * PressStage.ratePerKg (PartSpec.press part) /\
     Part.polishCharge req polish packing
     == polishOutput * PolishStage.ratePerKg polish /\
     Part.inductionCharge req part polish packing
     == match PartSpec.induction part with
        | Some i => if InductionStage.enabled i
                    then pressOutput * InductionStage.ratePerKg i
                    else 0
        | None => 0
        end).
Proof.
  split; [|split].
  - intros num I req rate part polish packing. cbv zeta.
    repeat match goal with |- _ /\ _ => split end; try reflexivity.
    cbn [computePartForwardCost PartCostResult.components
         Components.inductionCharge].
    unfold Part.inductionCharge, Part.inductionEnabled, Part.inductionRate.
    destruct (PartSpec.induction part) as [i|]; reflexivity.
  - intros num I item settings.
    repeat match goal with |- _ /\ _ => split end; reflexivity.
  - intros req part polish packing (Hpr & Hpo & Hpa) Hind.
    pose proof (pressDelivered_is_polishInput req part polish packing Hpr) as Dpr.
    pose proof (polishDelivered_is_packingInput req polish packing Hpo) as Dpo.
    pose proof (inductionCharge_exact req part polish packing Hind) as Di.
    cbv zeta.
    repeat match goal with |- _ /\ _ => split end.
    + exact Dpr.
    + exact Dpo.
    + unfold Part.pressCharge. js_to_Q. rewrite Dpr. reflexivity.
    + unfold Part.polishCharge. js_to_Q. rewrite Dpo. reflexivity.
    + rewrite Di. unfold Part.inductionEnabled, Part.inductionRate.
      destruct (PartSpec.induction part) as [i|]; [|reflexivity].
      destruct (InductionStage.enabled i); [|reflexivity].
      rewrite Dpr. reflexivity.
Qed.

Lemma C3_witness :
  lossesInUnit (Item.box item11Induction) seedPolish seedPacking /\
  inductionRateNonneg (Item.box item11Induction) /\
  Part.pressCharge 49 (Item.box item11Induction) seedPolish seedPacking
  == 50 / ((1 - 2 / 100) * (1 - 2 / 100)) * 16 /\
  Part.polishCharge 49 seedPolish seedPacking == 50 * 72 /\
  Part.inductionCharge 49 (Item.box item11Induction) seedPolish seedPacking
  == 50 / ((1 - 2 / 100) * (1 - 2 / 100)) * 12.
Proof.
  assert (L : lossesInUnit (Item.box item11Induction) seedPolish seedPacking)
    by (repeat split; q_decide).
  assert (N : inductionRateNonneg (Item.box item11Induction)) by q_decide.
  pose proof (proj2 (proj2 C3_billing_on_delivered_mass) 49
                (Item.box item11Induction) seedPolish seedPacking L N) as T.
  cbv zeta in T.
  destruct T as (_ & _ & T3 & T4 & T5).
  split; [exact L|]. split; [exact N|]. split; [|split].
  - rewrite T3. q_decide.
  - rewrite T4. q_decide.
  - rewrite T5. q_decide.
Defined.

(** * Exact arithmetic: monotonicity of the required circle mass *)










(** * Exact arithmetic: rounding at the boundary *)












(** * The circle weight *)

(** C8: circleWeightG(d, t) = (263/254) d^2 ((t + 0.003) /
    0.263) for every diameter and thickness, the 0.003 being added to every
    thickness; circleWeightG(7, 0.26) = (263/254) x 49 x (0.263/0.263) =
    12887/254 = 50.7362..., which is 50.74 to two decimals; on binary64 the
    same equalities hold for the doubles. *)
Theorem C8_circle_weight_formula :
  (forall d t : Q,
     circleWeightG d t == (263 / 254) * (d * d) * ((t + 0.003) / 0.263)) /\
  (circleWeightG (num:=Q) 7 0.26 == (263 / 254) * 49 * (0.263 / 0.263) /\
   circleWeightG (num:=Q) 7 0.26 == 12887 # 254 /\
   50.7362 < circleWeightG (num:=Q) 7 0.26 /\
   circleWeightG (num:=Q) 7 0.26 < 50.7363 /\
   r2 (circleWeightG (num:=Q) 7 0.26) == 50.74) /\
  (circleWeightG (num:=float) (lit 7) (lit 0.26)
   = PrimFloat.mul (PrimFloat.mul (PrimFloat.div (lit 263) (lit 254)) (lit 49))
                   (PrimFloat.div (lit 0.263) (lit 0.263)) /\
   PrimFloat.add (lit 0.26) (lit 0.003) = lit (num:=float) 0.263 /\
   r2 (circleWeightG (num:=float) (lit 7) (lit 0.26)) = lit 50.74).
Proof.
  split; [|split].
  - intros d t. unfold circleWeightG, effectiveThicknessMm. js_to_Q. ring.
  - repeat match goal with |- _ /\ _ => split end; q_decide.
  - repeat match goal with |- _ /\ _ => split end; vm_compute; reflexivity.
Qed.

(** circleWeightG(7, 0.26) is not 50.78 to two decimals: it is more than
    0.04 below 50.78, and rounds to 50.74. *)
Lemma C8_counterexample :
  ~ (r2 (circleWeightG (num:=Q) 7 0.26) == 50.78) /\
  circleWeightG (num:=Q) 7 0.26 < 50.78 - 0.04 /\
  PrimFloat.eqb (r2 (circleWeightG (num:=float) (lit 7) (lit 0.26))) (lit 50.78)
  = false /\
  PrimFloat.ltb (circleWeightG (num:=float) (lit 7) (lit 0.26))
                (PrimFloat.sub (lit 50.78) (lit 0.04)) = true.
Proof.
  repeat match goal with |- _ /\ _ => split end.
  - intros H. vm_compute in H. discriminate H.
  - q_decide.
  - vm_compute. reflexivity.
  - vm_compute. reflexivity.
Qed.

(** * Binary64: Infinity and NaN through the pipeline *)

Section SpecFloatFacts.
Local Open Scope bool_scope.

Lemma SFdiv_by_zero (x : spec_float) (s : bool) :
  SFnonfinite (SF64div x (S754_zero s)) = true.
Proof. destruct x; reflexivity. Qed.

Lemma SFdiv_nonfinite (x y : spec_float) :
  SFnonfinite x = true -> SFnonfinite (SF64div x y) = true.
Proof. destruct x, y; intros H; try discriminate H; reflexivity. Qed.

Lemma SFmul_nonfinite_l (x y : spec_float) :
  SFnonfinite x = true -> SFnonfinite (SF64mul x y) = true.
Proof. destruct x, y; intros H; try discriminate H; reflexivity. Qed.

Lemma SFmul_nonfinite_r (x y : spec_float) :
  SFnonfinite y = true -> SFnonfinite (SF64mul x y) = true.
Proof. destruct x, y; intros H; try discriminate H; reflexivity. Qed.

Lemma SFadd_nonfinite_l (x y : spec_float) :
  SFnonfinite x = true -> SFnonfinite (SF64add x y) = true.
Proof.
  destruct x as [sx|sx| |sx mx ex], y as [sy|sy| |sy my ey]; intros H;
    try discriminate H; try reflexivity.
  destruct sx, sy; reflexivity.
Qed.

Lemma SFadd_nonfinite_r (x y : spec_float) :
  SFnonfinite y = true -> SFnonfinite (SF64add x y) = true.
Proof.
  destruct x as [sx|sx| |sx mx ex], y as [sy|sy| |sy my ey]; intros H;
    try discriminate H; try reflexivity.
  destruct sx, sy; reflexivity.
Qed.

Lemma SFsub_nonfinite_l (x y : spec_float) :
  SFnonfinite x = true -> SFnonfinite (SF64sub x y) = true.
Proof.
  destruct x as [sx|sx| |sx mx ex], y as [sy|sy| |sy my ey]; intros H;
    try discriminate H; try reflexivity.
  destruct sx, sy; reflexivity.
Qed.

Lemma SFmathRound_nonfinite (x : spec_float) :
  SFnonfinite x = true -> SFmathRound x = x.
Proof. destruct x; intros H; try discriminate H; reflexivity. Qed.

Lemma SFeqb_zero (x : spec_float) :
  SFeqb x (S754_zero false) = true -> exists s, x = S754_zero s.
Proof.
  destruct x as [s|s| |s m e]; intros H.
  - now exists s.
  - destruct s; discriminate H.
  - discriminate H.
  - destruct s; discriminate H.
Qed.

Lemma SFeqb_refl_finite (x : spec_float) :
  SFnonfinite x = false ->
  SFeqb x x = true /\ SFeqb (SFabs x) (S754_infinity false) = false.
Proof.
  destruct x as [s|s| |s m e]; intros H; try discriminate H.
  - split; reflexivity.
  - split; [|reflexivity].
    unfold SFeqb, SFcompare.
    rewrite Z.compare_refl, Pos.compare_cont_refl.
    destruct s; reflexivity.
Qed.
End SpecFloatFacts.

Lemma is_zero_spec (y : float) :
  PrimFloat.is_zero y = true -> exists s, Prim2SF y = S754_zero s.
Proof.
  unfold PrimFloat.is_zero. rewrite eqb_spec.
  change (Prim2SF PrimFloat.zero) with (S754_zero false).
  apply SFeqb_zero.
Qed.

(** [isFinite] is false exactly on Infinity and NaN. *)
Lemma is_finite_spec (x : float) :
  PrimFloat.is_finite x = negb (SFnonfinite (Prim2SF x)).
Proof.
  unfold PrimFloat.is_finite, PrimFloat.is_nan, PrimFloat.is_infinity.
  rewrite !eqb_spec, abs_spec.
  change (Prim2SF PrimFloat.infinity) with (S754_infinity false).
  destruct (SFnonfinite (Prim2SF x)) eqn:E.
  - destruct (Prim2SF x) as [s|s| |s m e]; try discriminate E;
      [destruct s; reflexivity | reflexivity].
  - destruct (SFeqb_refl_finite (Prim2SF x) E) as [E1 E2].
    rewrite E1, E2. reflexivity.
Qed.

Lemma nonfinite_is_finite (x : float) :
  nonfinite x -> PrimFloat.is_finite x = false.
Proof. unfold nonfinite. intros H. now rewrite is_finite_spec, H. Qed.

Section NonFinite.
Local Open Scope js_scope.
Implicit Types x y : float.

Lemma nonfinite_div_zero x y : PrimFloat.is_zero y = true -> nonfinite (x / y).
Proof.
  intros H. destruct (is_zero_spec y H) as [s E].
  unfold nonfinite. cbn [div float_JsNumber].
  rewrite div_spec, E. apply SFdiv_by_zero.
Qed.

Lemma nonfinite_div x y : nonfinite x -> nonfinite (x / y).
Proof.
  unfold nonfinite. cbn [div float_JsNumber]. rewrite div_spec.
  apply SFdiv_nonfinite.
Qed.

Lemma nonfinite_mul_l x y : nonfinite x -> nonfinite (x * y).
Proof.
  unfold nonfinite. cbn [mul float_JsNumber]. rewrite mul_spec.
  apply SFmul_nonfinite_l.
Qed.

Lemma nonfinite_mul_r x y : nonfinite y -> nonfinite (x * y).
Proof.
  unfold nonfinite. cbn [mul float_JsNumber]. rewrite mul_spec.
  apply SFmul_nonfinite_r.
Qed.

Lemma nonfinite_add_l x y : nonfinite x -> nonfinite (x + y).
Proof.
  unfold nonfinite. cbn [add float_JsNumber]. rewrite add_spec.
  apply SFadd_nonfinite_l.
Qed.

Lemma nonfinite_add_r x y : nonfinite y -> nonfinite (x + y).
Proof.
  unfold nonfinite. cbn [add float_JsNumber]. rewrite add_spec.
  apply SFadd_nonfinite_r.
Qed.

Lemma nonfinite_sub_l x y : nonfinite x -> nonfinite (x - y).
Proof.
  unfold nonfinite. cbn [sub float_JsNumber]. rewrite sub_spec.
  apply SFsub_nonfinite_l.
Qed.

(** [Math.round] returns Infinity and NaN unchanged. *)
Lemma nonfinite_mathRound x : nonfinite x -> mathRound x = x.
Proof.
  unfold nonfinite. intros H. cbn [mathRound float_JsNumber].
  unfold float_mathRound.
  rewrite (SFmathRound_nonfinite (Prim2SF x) H).
  apply SF2Prim_Prim2SF.
Qed.

Lemma nonfinite_r2 x : nonfinite x -> nonfinite (r2 x).
Proof.
  intros H. unfold r2.
  rewrite (nonfinite_mathRound (x * lit 100) (nonfinite_mul_l x _ H)).
  apply nonfinite_div, nonfinite_mul_l, H.
Qed.

Lemma nonfinite_r3 x : nonfinite x -> nonfinite (r3 x).
Proof.
  intros H. unfold r3.
  rewrite (nonfinite_mathRound (x * lit 1000) (nonfinite_mul_l x _ H)).
  apply nonfinite_div, nonfinite_mul_l, H.
Qed.
End NonFinite.

Create HintDb nonfinite.
#[export] Hint Resolve nonfinite_div nonfinite_mul_l nonfinite_mul_r
  nonfinite_add_l nonfinite_add_r nonfinite_sub_l nonfinite_r2 nonfinite_r3
  : nonfinite.

Section Pipeline.
Local Open Scope js_scope.

(** A zero divisor at any of the three stages makes the required circle
    mass Infinity or NaN, whatever the required packed mass is. *)
Lemma pressInputCircleKg_nonfinite (req : float) (part : PartSpec.t float)
    (polish : PolishStage.t float) (packing : PackingStage.t float) :
  PrimFloat.is_zero (packingDivisor packing) = true \/
  PrimFloat.is_zero (polishDivisor polish) = true \/
  PrimFloat.is_zero (pressDivisor part) = true ->
  nonfinite (Part.pressInputCircleKg req part polish packing).
Proof.
  unfold Part.pressInputCircleKg, Part.polishInputKalaKg, Part.packingInputKg.
  fold (packingDivisor packing). fold (polishDivisor polish).
  fold (pressDivisor part).
  intros [H | [H | H]].
  - apply nonfinite_div, nonfinite_div, nonfinite_div_zero, H.
  - apply nonfinite_div, nonfinite_div_zero, H.
  - apply nonfinite_div_zero, H.
Qed.

Lemma partCost_nonfinite (req rate : float) (part : PartSpec.t float)
    (polish : PolishStage.t float) (packing : PackingStage.t float) :
  nonfinite (Part.pressInputCircleKg req part polish packing) ->
  nonfinite (Part.circleCost req part polish packing rate) /\
  nonfinite (Part.partCost req part polish packing rate).
Proof.
  intros H. unfold Part.partCost, Part.circleCost.
  split; auto 10 with nonfinite.
Qed.

Lemma someDivisorZero_cases (item : Item.t float) :
  someDivisorZero item = true ->
  (forall req,
     nonfinite (Part.pressInputCircleKg req (Item.box item)
                  (Item.polish item) (Item.packing item))) \/
  (forall req,
     nonfinite (Part.pressInputCircleKg req (Item.cover item)
                  (Item.polish item) (Item.packing item))).
Proof.
  unfold someDivisorZero. intros H.
  apply orb_true_iff in H. destruct H as [H | H].
  - left. intros req. apply pressInputCircleKg_nonfinite.
    apply orb_true_iff in H. destruct H as [H | H]; [|now right; right].
    apply orb_true_iff in H. destruct H as [H | H]; [now left | now right; left].
  - right. intros req. apply pressInputCircleKg_nonfinite. now right; right.
Qed.

(** 100 % packing tut is a zero divisor. *)
Lemma packing_tut_100_zero_divisor (item : Item.t float) :
  PackingStage.tutPct (Item.packing item) = lit 100 ->
  someDivisorZero item = true.
Proof.
  intros H. unfold someDivisorZero, packingDivisor, Part.packTutP.
  rewrite H. reflexivity.
Qed.
End Pipeline.

(** C1: [calculate] has no domain check and returns a CalcResult for every
    input (it is a total function: [calc.ts] has no [throw]).  When some stage's divisor is zero - the
    combined loss fraction of packing, polish or either press stage is
    exactly 1, as with a packing tut of 100 % - the returned finalCost,
    perKgRate, perPcRate, circleCost and circleKgInTotal are Infinity or
    NaN. *)
Theorem C1_zero_divisor_returns_Infinity_or_NaN :
  forall (item : Item.t float) (settings : AppSettings.t float),
    someDivisorZero item = true ->
    let r := calculate item settings in
    PrimFloat.is_finite (Debug.finalCost (CalcResult.debug r)) = false /\
    PrimFloat.is_finite (CalcResult.perKgRate r) = false /\
    PrimFloat.is_finite (CalcResult.perPcRate r) = false /\
    PrimFloat.is_finite (Debug.circleCost (CalcResult.debug r)) = false /\
    PrimFloat.is_finite (Debug.circleKgInTotal (CalcResult.debug r)) = false.
Proof.
  intros item settings Hz.
  assert (Hin : nonfinite (add
            (Part.pressInputCircleKg (Calc.totalBoxKgPacked item settings)
               (Item.box item) (Item.polish item) (Item.packing item))
            (Part.pressInputCircleKg (Calc.totalCoverKgPacked item settings)
               (Item.cover item) (Item.polish item) (Item.packing item)))
          /\ nonfinite (Calc.circleCost item settings)
          /\ nonfinite (Calc.finalCost item settings)).
  { unfold Calc.circleCost, Calc.finalCost, Calc.boxCost, Calc.coverCost,
      Calc.boxCostRes, Calc.coverCostRes.
    cbn [computePartForwardCost PartCostResult.components
         PartCostResult.partCostExcludingFinalPackingCharge
         Components.circleCost].
    destruct (someDivisorZero_cases item Hz) as [Hb | Hc].
    - pose proof (Hb (Calc.totalBoxKgPacked item settings)) as Hb'.
      destruct (partCost_nonfinite _ (Calc.boxCircleRate item settings)
                  _ _ _ Hb') as [C P].
      repeat split; auto 10 with nonfinite.
    - pose proof (Hc (Calc.totalCoverKgPacked item settings)) as Hc'.
      destruct (partCost_nonfinite _ (Calc.coverCircleRate item settings)
                  _ _ _ Hc') as [C P].
      repeat split; auto 10 with nonfinite. }
  destruct Hin as (Hk & Hc & Hf).
  cbv zeta.
  cbn [calculate CalcResult.debug CalcResult.perKgRate CalcResult.perPcRate
       Debug.finalCost Debug.circleCost Debug.circleKgInTotal
       computePartForwardCost PartCostResult.flow Part.flow
       StageFlow.circleKgIn Calc.boxCostRes Calc.coverCostRes].
  unfold Calc.perPcRate, Calc.perKgRate.
  repeat split; apply nonfinite_is_finite; auto 10 with nonfinite.
Qed.

Lemma C1_witness :
  someDivisorZero belly7heavyTut100 = true /\
  PrimFloat.is_finite
    (Debug.finalCost
       (CalcResult.debug (calculate belly7heavyTut100 defaultSettings)))
  = false.
Proof.
  assert (Z : someDivisorZero belly7heavyTut100 = true) by reflexivity.
  split; [exact Z|].
  exact (proj1 (C1_zero_divisor_returns_Infinity_or_NaN
                  belly7heavyTut100 defaultSettings Z)).
Defined.

(** No domain error on a combined loss fraction of 1 or more: with the
    packing tut at 100 % the packing divisor is 0, and [calculate] returns
    a CalcResult whose
    circleKgInTotal, circleCost, pressCost, polishCost and scrapCredit are
    Infinity and whose finalCost, perKgRate and perPcRate are NaN; with a
    box press tut of 150 % (combined loss above 1) it returns a CalcResult
    too, with a negative circle mass. *)
Lemma C1_counterexample :
  PrimFloat.leb (lit 100)
    (PackingStage.tutPct (Item.packing (num:=float) belly7heavyTut100)) = true /\
  calculate (num:=float) belly7heavyTut100 defaultSettings
  = {| CalcResult.itemId := "it_1";
       CalcResult.itemName := "Belly 7in (heavy)";
       CalcResult.perPc :=
         {| PerPc.boxG := lit 47.73;
            PerPc.coverG := lit 30.7;
            PerPc.kundaG := lit 0;
            PerPc.polybagG := lit 4.36;
            PerPc.pipeG := lit 1.49;
            PerPc.totalPackedG := lit 84.28 |};
       CalcResult.pcsPerBag := lit 949.18;
       CalcResult.perKgRate := PrimFloat.nan;
       CalcResult.perPcRate := PrimFloat.nan;
       CalcResult.debug :=
         {| Debug.bagKg := lit 80;
            Debug.pcs := lit 949.181;
            Debug.circleKgInTotal := PrimFloat.infinity;
            Debug.circleCost := PrimFloat.infinity;
            Debug.pressCost := PrimFloat.infinity;
            Debug.inductionCost := lit 0;
            Debug.polishCost := PrimFloat.infinity;
            Debug.packingCost := lit 800;
            Debug.kundaCost := lit 0;
            Debug.plasticCost := lit 750.27;
            Debug.scrapCredit := PrimFloat.infinity;
            Debug.finalCost := PrimFloat.nan |} |} /\
  PrimFloat.leb (lit 100)
    (PressStage.tutPct
       (PartSpec.press (Item.box (num:=float) belly7heavyPressTut150))) = true /\
  Debug.circleKgInTotal
    (CalcResult.debug (calculate (num:=float) belly7heavyPressTut150 defaultSettings))
  = lit (-71.043) /\
  Debug.finalCost
    (CalcResult.debug (calculate (num:=float) belly7heavyPressTut150 defaultSettings))
  = lit 3642.94.
Proof.
  repeat match goal with |- _ /\ _ => split end; vm_compute; reflexivity.
Qed.

(** * Further properties of the stage flow (exact arithmetic) *)



Lemma Qdiv_nonneg (a k : Q) : 0 <= a -> 0 < k -> 0 <= a / k.
Proof.
  intros Ha Hk. apply Qle_shift_div_l; [exact Hk|]. lra.
Qed.



















(** * Further properties of the orchestrator (exact arithmetic) *)









(** * Rounding to the cent (exact arithmetic) *)






(** * Switches and rates (every number instance) *)

(** X11: a disabled kunda is ignored.  With kunda.enabled = false the kunda
    weight and cost are the number 0, and [calculate] returns the same
    result whatever kunda.weightG and kunda.ratePerKg are. *)
Theorem X11_kunda_disabled_is_ignored :
  forall (num : Type) (I : JsNumber num)
         (item : Item.t num) (settings : AppSettings.t num) (w r : num),
    KundaSpec.enabled (Item.kunda item) = false ->
    Calc.kundaG item = lit 0 /\
    Calc.kundaCost item settings = lit 0 /\
    calculate item settings
    = calculate
        (setKunda item
           {| KundaSpec.enabled := false; KundaSpec.weightG := w;
              KundaSpec.ratePerKg := r |})
        settings.
Proof.
  intros num I item settings w r He.
  assert (G : Calc.kundaG item = lit 0)
    by (unfold Calc.kundaG; now rewrite He).
  assert (C : Calc.kundaCost item settings = lit 0)
    by (unfold Calc.kundaCost; now rewrite He).
  split; [exact G|]. split; [exact C|].
  assert (T : Calc.totalPackedG item
              = Calc.totalPackedG
                  (setKunda item
                     {| KundaSpec.enabled := false; KundaSpec.weightG := w;
                        KundaSpec.ratePerKg := r |})).
  { unfold Calc.totalPackedG. rewrite G. reflexivity. }
  unfold Calc.calculate, Calc.perPcRate, Calc.perKgRate, Calc.finalCost,
    Calc.circleCost, Calc.pressCost, Calc.inductionCost, Calc.polishCost,
    Calc.scrapCredit, Calc.boxCost, Calc.coverCost, Calc.boxCostRes,
    Calc.coverCostRes, Calc.plasticCost, Calc.polybagKg, Calc.pipeKg,
    Calc.totalBoxKgPacked, Calc.totalCoverKgPacked, Calc.pcs, Calc.pcsPerBag.
  rewrite C, G, T. reflexivity.
Qed.

Lemma X11_witness :
  KundaSpec.enabled (Item.kunda (num:=float) belly7heavy) = false /\
  calculate (num:=float) belly7heavy defaultSettings
  = calculate
      (setKunda belly7heavy
         {| KundaSpec.enabled := false; KundaSpec.weightG := lit 10;
            KundaSpec.ratePerKg := lit 185 |})
      defaultSettings.
Proof.
  assert (E : KundaSpec.enabled (Item.kunda (num:=float) belly7heavy) = false)
    by reflexivity.
  split; [exact E|].
  exact (proj2 (proj2 (X11_kunda_disabled_is_ignored float float_JsNumber
                         belly7heavy defaultSettings (lit 10) (lit 185) E))).
Defined.

(** X12: a disabled scrap return is ignored.  For each of press, polish and
    packing, with scrapReturn.enabled = false the stage's scrap credit is
    the number 0 and the part is costed the same whatever the stage's scrap
    rate is. *)
Theorem X12_scrap_return_disabled_is_ignored :
  forall (num : Type) (I : JsNumber num) (req rate r : num)
         (part : PartSpec.t num) (polish : PolishStage.t num)
         (packing : PackingStage.t num),
    let off := {| ScrapReturn.enabled := false; ScrapReturn.ratePerKg := r |} in
    (ScrapReturn.enabled (PressStage.scrapReturn (PartSpec.press part)) = false ->
     Part.scrapCreditPress req part polish packing = lit 0 /\
     computePartForwardCost req part polish packing rate
     = computePartForwardCost req (setPressScrapReturn part off) polish packing
         rate) /\
    (ScrapReturn.enabled (PolishStage.scrapReturn polish) = false ->
     Part.scrapCreditPolish req polish packing = lit 0 /\
     computePartForwardCost req part polish packing rate
     = computePartForwardCost req part (setPolishScrapReturn polish off) packing
         rate) /\
    (ScrapReturn.enabled (PackingStage.scrapReturn packing) = false ->
     Part.scrapCreditPacking req packing = lit 0 /\
     computePartForwardCost req part polish packing rate
     = computePartForwardCost req part polish (setPackingScrapReturn packing off)
         rate).
Proof.
  intros num I req rate r part polish packing off.
  split; [|split]; intros He.
  - assert (Z : Part.scrapCreditPress req part polish packing = lit 0)
      by (unfold Part.scrapCreditPress, Part.press; now rewrite He).
    split; [exact Z|].
    unfold Part.computePartForwardCost, Part.flow, Part.partRatePerKgPacked,
      Part.partCost, Part.scrapCreditTotal.
    rewrite Z. reflexivity.
  - assert (Z : Part.scrapCreditPolish req polish packing = lit 0)
      by (unfold Part.scrapCreditPolish; now rewrite He).
    split; [exact Z|].
    unfold Part.computePartForwardCost, Part.flow, Part.partRatePerKgPacked,
      Part.partCost, Part.scrapCreditTotal.
    rewrite Z. reflexivity.
  - assert (Z : Part.scrapCreditPacking req packing = lit 0)
      by (unfold Part.scrapCreditPacking; now rewrite He).
    split; [exact Z|].
    unfold Part.computePartForwardCost, Part.flow, Part.partRatePerKgPacked,
      Part.partCost, Part.scrapCreditTotal.
    rewrite Z. reflexivity.
Qed.

Lemma X12_witness :
  ScrapReturn.enabled
    (PressStage.scrapReturn
       (PartSpec.press (Item.box (num:=float) belly7heavyRepriced))) = false /\
  computePartForwardCost (num:=float) (lit 49) (Item.box belly7heavyRepriced)
    seedPolish seedPacking (lit 175)
  = computePartForwardCost (lit 49)
      (setPressScrapReturn (Item.box belly7heavyRepriced)
         {| ScrapReturn.enabled := false; ScrapReturn.ratePerKg := lit 50 |})
      seedPolish seedPacking (lit 175).
Proof.
  assert (E : ScrapReturn.enabled
                (PressStage.scrapReturn
                   (PartSpec.press (Item.box (num:=float) belly7heavyRepriced)))
              = false) by reflexivity.
  split; [exact E|].
  exact (proj2 (proj1 (X12_scrap_return_disabled_is_ignored float float_JsNumber
                         (lit 49) (lit 175) (lit 50)
                         (Item.box belly7heavyRepriced) seedPolish seedPacking)
                  E)).
Defined.

(** X13: the resolved circle rate is never worse than the settings'
    fallback: it is the part's stored number or the fallback, it is finite
    when the fallback is finite, and it is above 0 when the fallback is
    above 0.  A stored NaN, Infinity, zero or negative rate is never
    returned. *)
Theorem X13_resolved_rate_finite_and_positive :
  forall (num : Type) (I : JsNumber num)
         (part : PartSpec.t num) (settings : AppSettings.t num),
    let rate := resolvePartCircleRatePerKg part settings in
    (PartSpec.circleRatePerKg part = JsNum rate \/
     rate = fallbackCircleRate settings) /\
    (isFinite (fallbackCircleRate settings) = true -> isFinite rate = true) /\
    (gtb (fallbackCircleRate settings) (lit 0) = true ->
     gtb rate (lit 0) = true) /\
    (rate <> fallbackCircleRate settings ->
     isFinite rate = true /\ gtb rate (lit 0) = true).
Proof.
  intros num I part settings. cbv zeta.
  unfold resolvePartCircleRatePerKg.
  destruct (PartSpec.circleRatePerKg part) as [ | |b|explicit|s];
    try (repeat split; auto; intros H; now elim H).
  destruct (isFinite explicit && gtb explicit (lit 0)) eqn:E.
  - apply andb_true_iff in E. destruct E as [E1 E2].
    repeat split; auto.
  - repeat split; auto; intros H; now elim H.
Qed.

Lemma X13_witness :
  gtb (num:=float) (fallbackCircleRate defaultSettings) (lit 0) = true /\
  gtb (num:=float)
      (resolvePartCircleRatePerKg
         (App.withCircleRate (Item.box belly7heavy) PrimFloat.nan)
         defaultSettings)
      (lit 0) = true.
Proof.
  assert (P : gtb (num:=float) (fallbackCircleRate defaultSettings) (lit 0)
              = true) by reflexivity.
  split; [exact P|].
  exact (proj1 (proj2 (proj2
           (X13_resolved_rate_finite_and_positive float float_JsNumber
              (App.withCircleRate (Item.box belly7heavy) PrimFloat.nan)
              defaultSettings))) P).
Defined.

(** X14: the packing rate only moves the packing charge.  Changing
    packingRatePerKg leaves the per-piece weights, pcsPerBag and the
    circle, press, induction, polish, kunda and plastic costs and the scrap
    credit as they are (every number instance); in exact arithmetic
    finalCost changes by bagStandardKg x the change of the rate. *)
Theorem X14_packing_rate_moves_packing_charge_only :
  (forall (num : Type) (I : JsNumber num)
          (item : Item.t num) (settings : AppSettings.t num) (r : num),
     let item' := setPacking item (setPackingRatePerKg (Item.packing item) r) in
     CalcResult.perPc (calculate item' settings)
     = CalcResult.perPc (calculate item settings) /\
     CalcResult.pcsPerBag (calculate item' settings)
     = CalcResult.pcsPerBag (calculate item settings) /\
     Calc.circleCost item' settings = Calc.circleCost item settings /\
     Calc.pressCost item' settings = Calc.pressCost item settings /\
     Calc.inductionCost item' settings = Calc.inductionCost item settings /\
     Calc.polishCost item' settings = Calc.polishCost item settings /\
     Calc.kundaCost item' settings = Calc.kundaCost item settings /\
     Calc.plasticCost item' settings = Calc.plasticCost item settings /\
     Calc.scrapCredit item' settings = Calc.scrapCredit item settings /\
     Calc.packingCost item' settings = mul (AppSettings.bagStandardKg settings) r)
  /\
  (forall (item : Item.t Q) (settings : AppSettings.t Q) (r : Q),
     Calc.finalCost
       (setPacking item (setPackingRatePerKg (Item.packing item) r)) settings
     == Calc.finalCost item settings
        + AppSettings.bagStandardKg settings
          * (r - PackingStage.packingRatePerKg (Item.packing item))).
Proof.
  split.
  - intros num I item settings r. cbv zeta.
    repeat match goal with |- _ /\ _ => split end; reflexivity.
  - intros item settings r.
    unfold Calc.finalCost, Calc.packingCost, Calc.bagKg.
    change (Calc.boxCost (setPacking item (setPackingRatePerKg (Item.packing item) r)) settings)
      with (Calc.boxCost item settings).
    change (Calc.coverCost (setPacking item (setPackingRatePerKg (Item.packing item) r)) settings)
      with (Calc.coverCost item settings).
    change (Calc.kundaCost (setPacking item (setPackingRatePerKg (Item.packing item) r)) settings)
      with (Calc.kundaCost item settings).
    change (Calc.plasticCost (setPacking item (setPackingRatePerKg (Item.packing item) r)) settings)
      with (Calc.plasticCost item settings).
    cbn [setPacking setPackingRatePerKg Item.packing
         PackingStage.packingRatePerKg].
    js_to_Q. ring.
Qed.

(** * The calculator screen *)

Section Screen.
Context {num : Type} {I : JsNumber num}.

(** The screen's base rate is the engine's resolved rate of the stored
    part. *)
Lemma boxBase_is_resolved (settings : AppSettings.t num) (sel : Item.t num) :
  App.boxBase settings sel = resolvePartCircleRatePerKg (Item.box sel) settings.
Proof. reflexivity. Qed.

Lemma coverBase_is_resolved (settings : AppSettings.t num) (sel : Item.t num) :
  App.coverBase settings sel
  = resolvePartCircleRatePerKg (Item.cover sel) settings.
Proof. reflexivity. Qed.

Lemma selected_None (items : list (Item.t num)) (selectedId : string) :
  App.selected items selectedId = None <->
  (forall i, List.In i items -> Item.id i <> selectedId).
Proof.
  unfold App.selected. split.
  - intros H i Hi E.
    pose proof (List.find_none _ _ H i Hi) as F. cbv beta in F.
    rewrite E, String.eqb_refl in F. discriminate F.
  - intros H.
    destruct (List.find (fun i => String.eqb (Item.id i) selectedId) items)
      as [i|] eqn:F; [|reflexivity].
    apply List.find_some in F. destruct F as [Hi E].
    apply String.eqb_eq in E. elim (H i Hi E).
Qed.
End Screen.

(** X15: what the screen shows.  The result is null exactly when no stored
    item has the selected id (in particular for an empty list); otherwise
    it is the engine's result for an item of the list with that id, so its
    itemId is the selected id, and its per-piece weights and pcsPerBag are
    those of the stored item: the automatic add only touches rates. *)
Theorem X15_screen_result :
  forall (num : Type) (I : JsNumber num) (items : list (Item.t num))
         (selectedId : string) (settings : AppSettings.t num),
    (App.result items selectedId settings = None <->
     (forall i, List.In i items -> Item.id i <> selectedId)) /\
    (forall r, App.result items selectedId settings = Some r ->
       exists sel,
         List.In sel items /\ Item.id sel = selectedId /\
         r = calculate (App.forCalc settings sel) settings /\
         CalcResult.itemId r = selectedId /\
         CalcResult.itemName r = Item.name sel /\
         CalcResult.perPc r = CalcResult.perPc (calculate sel settings) /\
         CalcResult.pcsPerBag r = CalcResult.pcsPerBag (calculate sel settings)).
Proof.
  intros num I items selectedId settings. split.
  - rewrite <- selected_None.
    unfold App.result, App.selectedForCalc.
    destruct (App.selected items selectedId); split; intros H;
      try reflexivity; discriminate H.
  - intros r Hr.
    unfold App.result, App.selectedForCalc in Hr.
    destruct (App.selected items selectedId) as [sel|] eqn:S;
      [|discriminate Hr].
    injection Hr as Hr. subst r.
    unfold App.selected in S. apply List.find_some in S.
    destruct S as [Hin E]. apply String.eqb_eq in E.
    exists sel. repeat split; try assumption.
Qed.

Lemma X15_witness :
  App.result (num:=float) (belly7heavy :: plain8lightInduction :: nil) "it_2"
    defaultSettings
  = Some (calculate (App.forCalc defaultSettings plain8lightInduction)
            defaultSettings) /\
  exists sel,
    List.In sel (belly7heavy :: plain8lightInduction :: nil) /\
    Item.id (num:=float) sel = "it_2"%string.
Proof.
  assert (R : App.result (num:=float)
                (belly7heavy :: plain8lightInduction :: nil) "it_2"
                defaultSettings
              = Some (calculate (App.forCalc defaultSettings plain8lightInduction)
                        defaultSettings)) by reflexivity.
  split; [exact R|].
  destruct (proj2 (X15_screen_result float float_JsNumber
                     (belly7heavy :: plain8lightInduction :: nil) "it_2"
                     defaultSettings) _ R)
    as (sel & Hin & Hid & _).
  exists sel. split; assumption.
Defined.



(** * Binary64: the other divisors *)

(** X17: a bag standard mass of zero.  On binary64, when bagStandardKg is
    (plus or minus) 0 the returned perKgRate and perPcRate are Infinity or
    NaN, whatever the item is. *)
Theorem X17_zero_bag_mass_gives_non_finite_rates :
  forall (item : Item.t float) (settings : AppSettings.t float),
    PrimFloat.is_zero (AppSettings.bagStandardKg settings) = true ->
    PrimFloat.is_finite (CalcResult.perKgRate (calculate item settings)) = false /\
    PrimFloat.is_finite (CalcResult.perPcRate (calculate item settings)) = false.
Proof.
  intros item settings Hz.
  assert (K : nonfinite (Calc.perKgRate item settings)).
  { unfold Calc.perKgRate, Calc.bagKg. now apply nonfinite_div_zero. }
  cbn [calculate CalcResult.perKgRate CalcResult.perPcRate].
  unfold Calc.perPcRate.
  split; apply nonfinite_is_finite; auto 10 with nonfinite.
Qed.

Lemma X17_witness :
  PrimFloat.is_zero (AppSettings.bagStandardKg (num:=float) zeroBagSettings)
  = true /\
  PrimFloat.is_finite
    (CalcResult.perKgRate (calculate belly7heavy zeroBagSettings)) = false.
Proof.
  assert (Z : PrimFloat.is_zero
                (AppSettings.bagStandardKg (num:=float) zeroBagSettings) = true)
    by reflexivity.
  split; [exact Z|].
  exact (proj1 (X17_zero_bag_mass_gives_non_finite_rates belly7heavy
                  zeroBagSettings Z)).
Defined.

(** X18: zero divisors in the weights.  On binary64, when the total packed
    weight per piece is (plus or minus) 0 the returned pcsPerBag and
    debug.pcs are Infinity or NaN; when pcsPerPipe is 0 the returned
    per-piece pipe weight and total packed weight are Infinity or NaN. *)
Theorem X18_zero_weight_divisors :
  forall (item : Item.t float) (settings : AppSettings.t float),
    (PrimFloat.is_zero (Calc.totalPackedG item) = true ->
     PrimFloat.is_finite (CalcResult.pcsPerBag (calculate item settings)) = false /\
     PrimFloat.is_finite (Debug.pcs (CalcResult.debug (calculate item settings)))
     = false) /\
    (PrimFloat.is_zero (Pipe.pcsPerPipe (BagProfile.pipe (Item.bagProfile item)))
     = true ->
     PrimFloat.is_finite (PerPc.pipeG (CalcResult.perPc (calculate item settings)))
     = false /\
     PrimFloat.is_finite
       (PerPc.totalPackedG (CalcResult.perPc (calculate item settings)))
     = false).
Proof.
  intros item settings. split; intros Hz.
  - assert (K : nonfinite (Calc.pcsPerBag item settings)).
    { unfold Calc.pcsPerBag. now apply nonfinite_div_zero. }
    cbn [calculate CalcResult.pcsPerBag CalcResult.debug Debug.pcs].
    unfold Calc.pcs.
    split; apply nonfinite_is_finite; auto with nonfinite.
  - assert (K : nonfinite (Calc.pipePerPcG item)).
    { unfold Calc.pipePerPcG. now apply nonfinite_div_zero. }
    cbn [calculate CalcResult.perPc PerPc.pipeG PerPc.totalPackedG].
    unfold Calc.totalPackedG.
    split; apply nonfinite_is_finite; auto with nonfinite.
Qed.

Lemma X18_witness :
  PrimFloat.is_zero
    (Pipe.pcsPerPipe
       (BagProfile.pipe (Item.bagProfile (num:=float) belly7heavyNoPipeCount)))
  = true /\
  PrimFloat.is_finite
    (PerPc.totalPackedG
       (CalcResult.perPc (calculate belly7heavyNoPipeCount defaultSettings)))
  = false.
Proof.
  assert (Z : PrimFloat.is_zero
                (Pipe.pcsPerPipe
                   (BagProfile.pipe
                      (Item.bagProfile (num:=float) belly7heavyNoPipeCount)))
              = true) by reflexivity.
  split; [exact Z|].
  exact (proj2 (proj2 (X18_zero_weight_divisors belly7heavyNoPipeCount
                         defaultSettings) Z)).
Defined.

(** * The bag standard mass only sets the scale (exact arithmetic) *)







